(** * Topic aggregation and ranking of [output.py]

    A shallow embedding of the script that tallies the comma-separated
    [topics] column of a repository table, ranks the labels by frequency
    and writes the ranking in three formats, followed by the properties
    proved about it.

    Python values are modelled as follows.
    - A [str] is a [string] whose characters are the code points below
      256; [strip], [lower] and [split] behave on them as Python does.
    - An [int] is a [Z].
    - A table cell is a [cell]: blank cells are the float NaN, textual
      cells are strings, cells of an integer column are integers, Python
      ones in a row that also holds text and numpy ones in a table of
      integers alone.  Finite floats and booleans are left out of the
      model.
    - A [dict] is an association list in insertion order, which is the
      order Python iterates it in.
    - File and console effects are threaded through a state and exception
      monad over a [world].  A file an exception cut short is kept as
      such; the clock of a world is what every reading of the time during
      the run is taken from; the console takes every message. *)

From Stdlib Require Import List String Ascii ZArith NArith Bool Lia.
From Stdlib Require Import Sorting.Sorted Sorting.Permutation.
From Stdlib Require Import DecimalString.
Import ListNotations.

Local Open Scope string_scope.
Local Open Scope list_scope.
Local Open Scope Z_scope.

(** ** Python strings *)

(** [str.isspace] on one code point below 256: TAB..CR, FS..US, space,
    NEL and the no-break space. *)
Definition isspace (c : ascii) : bool :=
  let n := N_of_ascii c in
  (((9 <=? n) && (n <=? 13)) || ((28 <=? n) && (n <=? 32))
   || (n =? 133) || (n =? 160))%N.

(** [str.lower] on one code point below 256: A..Z and the accented
    capitals U+00C0..U+00DE, the multiplication sign excepted. *)
Definition lower_char (c : ascii) : ascii :=
  let n := N_of_ascii c in
  if (((65 <=? n) && (n <=? 90))
      || ((192 <=? n) && (n <=? 222) && negb (n =? 215)))%N
  then ascii_of_N (n + 32) else c.

Fixpoint lower (s : string) : string :=
  match s with
  | EmptyString => EmptyString
  | String c s' => String (lower_char c) (lower s')
  end.

Definition is_empty (s : string) : bool :=
  match s with EmptyString => true | String _ _ => false end.

Fixpoint lstrip (s : string) : string :=
  match s with
  | EmptyString => EmptyString
  | String c s' => if isspace c then lstrip s' else s
  end.

Fixpoint rstrip (s : string) : string :=
  match s with
  | EmptyString => EmptyString
  | String c s' =>
      let r := rstrip s' in
      if isspace c && is_empty r then EmptyString else String c r
  end.

(** [s.strip()] *)
Definition strip (s : string) : string := rstrip (lstrip s).

(** [s.split(sep)] for a one-character separator: never the empty list. *)
Fixpoint split (sep : ascii) (s : string) : list string :=
  match s with
  | EmptyString => [EmptyString]
  | String c s' =>
      if Ascii.eqb c sep then EmptyString :: split sep s'
      else match split sep s' with
           | piece :: rest => String c piece :: rest
           | [] => [String c EmptyString]
           end
  end.

(** [sep.join(l)] on a list of strings. *)
Fixpoint join (sep : string) (l : list string) : string :=
  match l with
  | [] => EmptyString
  | [s] => s
  | s :: rest => (s ++ sep ++ join sep rest)%string
  end.

Definition head_char (s : string) : option ascii :=
  match s with EmptyString => None | String c _ => Some c end.

Fixpoint last_char (s : string) : option ascii :=
  match s with
  | EmptyString => None
  | String c EmptyString => Some c
  | String _ s' => last_char s'
  end.

(** ** Table cells *)

(** What [row.get(column, '')] can return.  A NaN carries the address of
    its float object: Python's [in] on a list tests identity before
    equality, and a NaN equals nothing, itself included.  An integer cell
    is a Python [int] when its row also holds text (the row is then a
    Series of objects) and a [numpy.int64] when every column of the frame
    is integer; the two behave alike in the loop and differ for
    [json.dump]. *)
Inductive cell : Type :=
| NaN (addr : nat)
| Str (s : string)
| Int (z : Z)
| Int64 (z : Z).

(** [pd.isna(v)] on a scalar. *)
Definition isna (v : cell) : bool :=
  match v with NaN _ => true | _ => false end.

(** [v == ''] *)
Definition eq_empty_str (v : cell) : bool :=
  match v with Str s => is_empty s | _ => false end.

(** [bool(v)]: a NaN is a non-zero float, hence true. *)
Definition truthy (v : cell) : bool :=
  match v with
  | NaN _ => true
  | Str s => negb (is_empty s)
  | Int z | Int64 z => negb (z =? 0)
  end.

(** [str(v)] *)
Definition py_str (v : cell) : string :=
  match v with
  | NaN _ => "nan"
  | Str s => s
  | Int z | Int64 z => NilZero.string_of_int (Z.to_int z)
  end.

(** [a is b or a == b], the test [in] applies to each list element. *)
Definition is_or_eq (a b : cell) : bool :=
  match a, b with
  | NaN i, NaN j => Nat.eqb i j
  | Str s, Str t => String.eqb s t
  | Int x, Int y | Int x, Int64 y | Int64 x, Int y | Int64 x, Int64 y => x =? y
  | _, _ => false
  end.

(** [v in l] *)
Definition py_in (v : cell) (l : list cell) : bool :=
  existsb (is_or_eq v) l.

(** ** Aggregation state *)

Record row : Type := { repo_name : cell; topics : cell }.

(** The value stored per label: [{'topic': .., 'count': .., 'repos': ..}]. *)
Record TopicStat : Type :=
  { topic : string; count : Z; repos : list cell }.

Definition dict : Type := list (string * TopicStat).

Fixpoint dict_get (k : string) (m : dict) : option TopicStat :=
  match m with
  | [] => None
  | (k', v) :: m' => if String.eqb k k' then Some v else dict_get k m'
  end.

(** [k in m] *)
Definition dict_mem (k : string) (m : dict) : bool :=
  match dict_get k m with Some _ => true | None => false end.

(** [m[k] = v]: an existing key keeps its position, a new one goes last. *)
Fixpoint dict_set (k : string) (v : TopicStat) (m : dict) : dict :=
  match m with
  | [] => [(k, v)]
  | (k', v') :: m' =>
      if String.eqb k k' then (k', v) :: m' else (k', v') :: dict_set k v m'
  end.

(** [list(m.values())] *)
Definition dict_values (m : dict) : list TopicStat := map snd m.

Definition dict_keys (m : dict) : list string := map fst m.

(** ** [count_topics_from_csv]: the loop over the rows *)

(** [[t.strip() for t in s.split(',') if t.strip()]] *)
Definition parse_topics (s : string) : list string :=
  map strip (filter (fun t => negb (is_empty (strip t))) (split "," s)).

(** Body of [for topic in topics]. *)
Definition add_topic (repo : cell) (topic_map : dict) (t : string) : dict :=
  let topic_lower := lower t in
  let m1 :=
    if negb (dict_mem topic_lower topic_map)
    then dict_set topic_lower {| topic := t; count := 0; repos := [] |} topic_map
    else topic_map in
  match dict_get topic_lower m1 with
  | None => m1
  | Some st =>
      let st1 := {| topic := topic st; count := count st + 1; repos := repos st |} in
      let st2 :=
        if truthy repo && negb (py_in repo (repos st1))
        then {| topic := topic st1; count := count st1; repos := repos st1 ++ [repo] |}
        else st1 in
      dict_set topic_lower st2 m1
  end.

(** Body of [for idx, row in df.iterrows()]. *)
Definition process_row (topic_map : dict) (r : row) : dict :=
  let topics_str := topics r in
  if isna topics_str || eq_empty_str topics_str then topic_map
  else fold_left (add_topic (repo_name r)) (parse_topics (py_str topics_str)) topic_map.

(** The mapping [count_topics_from_csv] returns for a table read as [rows]. *)
Definition aggregate (rows : list row) : dict :=
  fold_left process_row rows [].

(** ** [generate_wordcloud_data]: ranking *)

(** One entry of the ranked output: [{'name', 'value', 'count', 'repos'}]. *)
Record RankedEntry : Type :=
  { name : string; value : Z; entry_count : Z; entry_repos : list cell }.

Section Sorting.
Context {A : Type} (key : A -> Z).

(** [x] arrives from the left of everything in [l]: it stops in front of
    the first element whose key is not larger, so equal keys keep their
    original order. *)
Fixpoint insert_desc (x : A) (l : list A) : list A :=
  match l with
  | [] => [x]
  | y :: l' => if key y <=? key x then x :: y :: l' else y :: insert_desc x l'
  end.

(** [l.sort(key=key, reverse=True)].  Python's sort is stable, with
    [reverse=True] as well; a stable sort is determined by its input, so
    insertion stands for it. *)
Definition sort_desc (l : list A) : list A := fold_right insert_desc [] l.

End Sorting.

(** [l[:n]]: a negative bound counts from the end. *)
Definition slice_to {A : Type} (n : Z) (l : list A) : list A :=
  if 0 <=? n then firstn (Z.to_nat n) l
  else firstn (List.length l - Z.to_nat (- n)) l.

Definition to_entry (stat : TopicStat) : RankedEntry :=
  {| name := topic stat; value := count stat;
     entry_count := count stat; entry_repos := repos stat |}.

Definition generate_wordcloud_data (topic_map : dict) (top_n : Z) : list RankedEntry :=
  let stats_list := sort_desc count (dict_values topic_map) in
  let top_n_list := slice_to top_n stats_list in
  map to_entry top_n_list.

(** ** Files, console and exceptions *)

Inductive path : Type := INPUT_CSV | OUTPUT_JSON | OUTPUT_CSV | OUTPUT_EXCEL.

Definition path_eqb (p q : path) : bool :=
  match p, q with
  | INPUT_CSV, INPUT_CSV | OUTPUT_JSON, OUTPUT_JSON
  | OUTPUT_CSV, OUTPUT_CSV | OUTPUT_EXCEL, OUTPUT_EXCEL => true
  | _, _ => false
  end.

(** The JSON document, its fixed description string left out. *)
Record json_output : Type :=
  { generatedAt : string; data : list RankedEntry;
    totalTopics : Z; top15Topics : Z }.

(** A line of the CSV artifact: name, value, count, repoCount. *)
Definition csv_line : Type := (string * Z * Z * Z)%type.

(** A line of a spreadsheet: rank, label, count, number of repositories,
    joined repository list. *)
Definition sheet_line : Type := (Z * string * Z * Z * string)%type.

(** What a file holds.  A workbook carries the time openpyxl writes into
    its document properties.  [Unfinished] is a file that was opened for
    writing and cut short by an exception: it exists, and the model says
    nothing of what is in it. *)
Inductive content : Type :=
| Table (rows : list row)
| JsonDoc (doc : json_output)
| CsvDoc (lines : list csv_line)
| Workbook (stamp : string) (top : list sheet_line) (all : list sheet_line)
| Unfinished.

(** Console output, one constructor per group of [print] calls. *)
Inductive message : Type :=
| MsgStart
| MsgMissingInput
| MsgReading
| MsgRowCount (n : Z)
| MsgTopicCount (n : Z)
| MsgTopHeader
| MsgTopItem (rank : Z) (label : string) (n : Z) (nrepos : Z)
| MsgSavedJson
| MsgSavedCsv
| MsgSavedExcel
| MsgDone.

Record world : Type :=
  { files : path -> option content;
    clock : string;
    console : list message }.

Inductive exn : Type :=
  FileNotFoundError | ParserError | TypeError | ValueError
| IllegalCharacterError.

Inductive result (A : Type) : Type :=
| Ok (a : A)
| Raise (e : exn).
Arguments Ok {A} a.
Arguments Raise {A} e.

Definition M (A : Type) : Type := world -> result A * world.

Definition ret {A : Type} (a : A) : M A := fun w => (Ok a, w).

Definition bind {A B : Type} (c : M A) (k : A -> M B) : M B :=
  fun w =>
    match c w with
    | (Ok a, w') => k a w'
    | (Raise e, w') => (Raise e, w')
    end.

Notation "x <- c ;; k" := (bind c (fun x => k))
  (at level 61, c at next level, right associativity).
Notation "c ;; k" := (bind c (fun _ => k))
  (at level 61, right associativity).

Definition lift {A : Type} (r : result A) : M A := fun w => (r, w).

Definition print (msg : message) : M unit :=
  fun w => (Ok tt, {| files := files w; clock := clock w;
                      console := console w ++ [msg] |}).

(** [os.path.exists(p)] *)
Definition path_exists (p : path) : M bool :=
  fun w => (Ok (match files w p with Some _ => true | None => false end), w).

(** [pd.read_csv(p)] *)
Definition read_csv (p : path) : M (list row) :=
  fun w =>
    match files w p with
    | Some (Table rows) => (Ok rows, w)
    | Some _ => (Raise ParserError, w)
    | None => (Raise FileNotFoundError, w)
    end.

(** [pd.Timestamp.now().isoformat()] *)
Definition timestamp_now : M string := fun w => (Ok (clock w), w).

Definition write_file (p : path) (c : content) : M unit :=
  fun w => (Ok tt, {| files := fun q => if path_eqb q p then Some c else files w q;
                      clock := clock w; console := console w |}).

Fixpoint for_each {A : Type} (body : A -> M unit) (l : list A) : M unit :=
  match l with
  | [] => ret tt
  | x :: l' => body x ;; for_each body l'
  end.

(** [enumerate(l, start)] *)
Fixpoint enumerate {A : Type} (start : Z) (l : list A) : list (Z * A) :=
  match l with
  | [] => []
  | x :: l' => (start, x) :: enumerate (start + 1) l'
  end.

Definition len {A : Type} (l : list A) : Z := Z.of_nat (List.length l).

(** ** The script's functions *)

Definition count_topics_from_csv (csv_path : path) : M dict :=
  print MsgReading ;;
  df <- read_csv csv_path ;;
  print (MsgRowCount (len df)) ;;
  ret (aggregate df).

(** What [json.dump] can encode among the cells: strings, Python integers
    and floats (a NaN is written as [NaN]), not a [numpy.int64]. *)
Definition json_encodable (c : cell) : bool :=
  match c with Int64 _ => false | _ => true end.

(** The file is opened for writing before [json.dump] runs, and
    [json.dump] writes as it goes: a cell it cannot encode raises
    [TypeError] and leaves the document cut short. *)
Definition save_json (data : list RankedEntry) (topic_map : dict) : M unit :=
  now <- timestamp_now ;;
  if forallb (fun item => forallb json_encodable (entry_repos item)) data
  then
    write_file OUTPUT_JSON
      (JsonDoc {| generatedAt := now; data := data;
                  totalTopics := len topic_map; top15Topics := len data |}) ;;
    print MsgSavedJson
  else
    write_file OUTPUT_JSON Unfinished ;;
    lift (Raise TypeError).

Definition save_csv (data : list RankedEntry) : M unit :=
  write_file OUTPUT_CSV
    (CsvDoc (map (fun item => (name item, value item, entry_count item,
                               len (entry_repos item))) data)) ;;
  print MsgSavedCsv.

(** [', '.join(l)]: any element that is not a [str] raises [TypeError]. *)
Fixpoint join_cells (l : list cell) : result (list string) :=
  match l with
  | [] => Ok []
  | Str s :: l' =>
      match join_cells l' with
      | Ok ss => Ok (s :: ss)
      | Raise e => Raise e
      end
  | _ :: _ => Raise TypeError
  end.

Definition join_repos (l : list cell) : result string :=
  match join_cells l with
  | Ok ss => Ok (join ", " ss)
  | Raise e => Raise e
  end.

(** The list comprehension building a sheet: it stops at the first row
    whose repository list cannot be joined. *)
Fixpoint sheet_lines (l : list (Z * (string * Z * list cell))) : result (list sheet_line) :=
  match l with
  | [] => Ok []
  | (i, (label, n, rs)) :: l' =>
      match join_repos (slice_to 10 rs) with
      | Raise e => Raise e
      | Ok joined =>
          match sheet_lines l' with
          | Raise e => Raise e
          | Ok lines => Ok ((i + 1, label, n, len rs, joined) :: lines)
          end
      end
  end.

(** openpyxl's [ILLEGAL_CHARACTERS_RE]: the control characters other than
    TAB, LF and CR. *)
Definition illegal_char (c : ascii) : bool :=
  let n := N_of_ascii c in
  ((n <=? 8) || ((11 <=? n) && (n <=? 12)) || ((14 <=? n) && (n <=? 31)))%N.

Fixpoint illegal_within (limit : N) (s : string) : bool :=
  match s with
  | EmptyString => false
  | String c s' =>
      if (limit =? 0)%N then false
      else illegal_char c || illegal_within (N.pred limit) s'
  end.

(** openpyxl's [Cell.check_string] on the text of a cell: the text is cut
    to 32767 characters and then searched for an illegal character;
    [true] stands for [IllegalCharacterError]. *)
Definition check_string (s : string) : bool := illegal_within 32767 s.

(** The text cells of a line: the label and the joined repositories. *)
Definition illegal_line (x : sheet_line) : bool :=
  let '(_, label, _, _, joined) := x in
  check_string label || check_string joined.

(** [df.to_excel(writer, ...)] on a frame of these lines: pandas refuses
    a frame of more than 2**20 rows with [ValueError] before it writes a
    cell; openpyxl then checks every text cell it is given. *)
Definition to_excel (lines : list sheet_line) : result unit :=
  if 1048576 <? len lines then Raise ValueError
  else if existsb illegal_line lines then Raise IllegalCharacterError
  else Ok tt.

(** The two frames are built first, and a repository that is not a string
    raises [TypeError] there, before any file is touched.  The writer then
    opens the workbook and the frames are written one after the other; an
    exception from [to_excel] passes through the writer, which is closed
    on the way out and leaves a workbook cut short.  Saved in full, the
    workbook holds the two sheets and, in its document properties, the
    time of the run. *)
Definition save_excel (data : list RankedEntry) (topic_map : dict) : M unit :=
  df1 <- lift (sheet_lines
                 (enumerate 0 (map (fun item => (name item, entry_count item,
                                                 entry_repos item)) data))) ;;
  let all_stats := sort_desc count (dict_values topic_map) in
  df2 <- lift (sheet_lines
                 (enumerate 0 (map (fun stat => (topic stat, count stat,
                                                 repos stat)) all_stats))) ;;
  match to_excel df1, to_excel df2 with
  | Ok _, Ok _ =>
      now <- timestamp_now ;;
      write_file OUTPUT_EXCEL (Workbook now df1 df2) ;;
      print MsgSavedExcel
  | Raise e, _ | Ok _, Raise e =>
      write_file OUTPUT_EXCEL Unfinished ;;
      lift (Raise e)
  end.

Definition main : M unit :=
  print MsgStart ;;
  found <- path_exists INPUT_CSV ;;
  if negb found then print MsgMissingInput
  else
    topic_map <- count_topics_from_csv INPUT_CSV ;;
    print (MsgTopicCount (len topic_map)) ;;
    let wordcloud_data := generate_wordcloud_data topic_map 15 in
    print MsgTopHeader ;;
    for_each (fun '(i, item) =>
                print (MsgTopItem i (name item) (entry_count item)
                                  (len (entry_repos item))))
             (enumerate 1 wordcloud_data) ;;
    save_json wordcloud_data topic_map ;;
    save_csv wordcloud_data ;;
    save_excel wordcloud_data topic_map ;;
    print MsgDone.

(** A world holding the table [rows] as input file and no output yet. *)
Definition world_with (input : option (list row)) (now : string) : world :=
  {| files := fun p => match p with
                       | INPUT_CSV => option_map Table input
                       | _ => None
                       end;
     clock := now; console := [] |}.

Definition written (w : world) (p : path) : bool :=
  match files w p with Some _ => true | None => false end.

(** ** Vocabulary of the statements *)

(** The record a label gets when it is first met. *)
Definition fresh (t : string) : TopicStat :=
  {| topic := t; count := 0; repos := [] |}.

(** One more occurrence, coming from repository cell [repo]. *)
Definition bump (repo : cell) (st : TopicStat) : TopicStat :=
  {| topic := topic st; count := count st + 1;
     repos := if truthy repo && negb (py_in repo (repos st))
              then repos st ++ [repo] else repos st |}.

(** The labels a row contributes, in order. *)
Definition labels_of_row (r : row) : list string :=
  if isna (topics r) || eq_empty_str (topics r) then []
  else parse_topics (py_str (topics r)).

(** Every label occurrence of the table with the repository cell of its
    row, in scan order. *)
Definition occurrences (rows : list row) : list (cell * string) :=
  flat_map (fun r => map (pair (repo_name r)) (labels_of_row r)) rows.

Definition all_labels (rows : list row) : list string :=
  flat_map labels_of_row rows.

(** Case-insensitive comparison of a label with a key. *)
Definition has_key (k : string) (t : string) : bool := String.eqb (lower t) k.

(** The row lists label [k], whatever the case. *)
Definition contains_label (k : string) (r : row) : bool :=
  existsb (has_key k) (labels_of_row r).

Definition run (occ : list (cell * string)) (m : dict) : dict :=
  fold_left (fun acc o => add_topic (fst o) acc (snd o)) occ m.

(** Keys in order of first occurrence. *)
Fixpoint first_seen (keys : list string) : list string :=
  match keys with
  | [] => []
  | k :: keys' => k :: filter (fun k' => negb (String.eqb k' k)) (first_seen keys')
  end.

(** The occurrences that fall under key [k]. *)
Definition matching (k : string) (occ : list (cell * string)) : list (cell * string) :=
  filter (fun o => has_key k (snd o)) occ.

(** What the entry under key [k] is after the occurrences [occ]. *)
Definition entry_ok (k : string) (occ : list (cell * string))
           (e : option TopicStat) : Prop :=
  match e with
  | None => matching k occ = []
  | Some st =>
      count st = len (matching k occ)
      /\ option_map snd (hd_error (matching k occ)) = Some (topic st)
      /\ ((forall c, In c (repos st) ->
                     truthy c = true /\ In c (map fst (matching k occ)))
          /\ (forall c, truthy c = true -> In c (map fst (matching k occ)) ->
                        py_in c (repos st) = true))
      /\ NoDup (repos st)
      /\ len (repos st) <= count st
  end.

(** Descending order of the sort key. *)
Definition desc {A : Type} (key : A -> Z) (a b : A) : Prop := key b <= key a.

(** The elements whose sort key is [c]. *)
Definition with_key {A : Type} (key : A -> Z) (c : Z) (a : A) : bool :=
  key a =? c.

Definition prefix_of {A : Type} (l1 l2 : list A) : Prop :=
  exists rest, l2 = l1 ++ rest.

(** [not isinstance(v, str)] *)
Definition not_a_string (v : cell) : bool :=
  match v with Str _ => false | _ => true end.

(** Sample tables. *)
Definition go_row (repo : cell) : row :=
  {| repo_name := repo; topics := Str "  Go ,Go,go " |}.

Definition numeric_row : row := {| repo_name := Str "r"; topics := Int 7 |}.

Definition blank_repo_rows : list row :=
  [ {| repo_name := Str "repoA"; topics := Str "go" |};
    {| repo_name := NaN 0; topics := Str "go" |} ].

(** The computation leaves the input table as it found it, whether it
    returns or raises. *)
Definition keeps_input {A : Type} (c : M A) : Prop :=
  forall w, files (snd (c w)) INPUT_CSV = files w INPUT_CSV.

(** Run from [w], the computation returns normally and [Q] holds of its
    value and final world. *)
Definition returns {A : Type} (c : M A) (w : world) (Q : A -> world -> Prop) : Prop :=
  match c w with
  | (Ok a, w') => Q a w'
  | (Raise _, _) => False
  end.

(** Python strings among the cells. *)
Definition is_str (v : cell) : bool :=
  match v with Str _ => true | _ => false end.

(** Sum of the counts of a mapping. *)
Definition total_count (m : dict) : Z :=
  fold_right (fun e acc => count (snd e) + acc) 0 m.

(** The count stored under [k], or 0 when [k] is not a key. *)
Definition count_of (k : string) (m : dict) : Z :=
  match dict_get k m with Some st => count st | None => 0 end.

(** The cells of a list, each kept at its first occurrence. *)
Fixpoint first_cells (l : list cell) : list cell :=
  match l with
  | [] => []
  | c :: l' => c :: filter (fun c' => negb (is_or_eq c' c)) (first_cells l')
  end.

(** [c in s] for a character [c]. *)
Fixpoint has_char (c : ascii) (s : string) : bool :=
  match s with
  | EmptyString => false
  | String a s' => Ascii.eqb a c || has_char c s'
  end.

(** Columns of a spreadsheet line. *)
Definition line_rank (x : sheet_line) : Z := let '(i, _, _, _, _) := x in i.
Definition line_label (x : sheet_line) : string := let '(_, t, _, _, _) := x in t.
Definition line_count (x : sheet_line) : Z := let '(_, _, n, _, _) := x in n.
Definition line_nrepos (x : sheet_line) : Z := let '(_, _, _, r, _) := x in r.

(** The first ten cells of a repos list can be joined. *)
Definition joinable (rs : list cell) : bool := forallb is_str (slice_to 10 rs).

Definition line_repos (x : sheet_line) : string := let '(_, _, _, _, j) := x in j.

(** The lines of a sheet whose repository lists can all be joined. *)
Definition sheet_of (start : Z) (l : list (string * Z * list cell)) : list sheet_line :=
  map (fun '(i, (label, n, rs)) =>
         (i + 1, label, n, len rs, join ", " (map py_str (slice_to 10 rs))))
      (enumerate start l).

(** The two sheets of the workbook. *)
Definition top_sheet (data : list RankedEntry) : list sheet_line :=
  sheet_of 0 (map (fun item => (name item, entry_count item, entry_repos item)) data).

Definition all_sheet (topic_map : dict) : list sheet_line :=
  sheet_of 0 (map (fun stat => (topic stat, count stat, repos stat))
                  (sort_desc count (dict_values topic_map))).

(** No character of the text is one openpyxl refuses. *)
Fixpoint legal_text (s : string) : bool :=
  match s with
  | EmptyString => true
  | String c s' => negb (illegal_char c) && legal_text s'
  end.

(** The file [p] holding [c], the rest of the world as in [w]. *)
Definition with_file (p : path) (c : content) (w : world) : world :=
  {| files := fun q => if path_eqb q p then Some c else files w q;
     clock := clock w; console := console w |}.

(** One more message on the console of [w]. *)
Definition with_message (msg : message) (w : world) : world :=
  {| files := files w; clock := clock w; console := console w ++ [msg] |}.

(** Two states of an artifact that differ at most in the time written
    into it: the timestamp of the JSON document, the stamp of the
    workbook. *)
Definition same_but_timestamp (a b : option content) : Prop :=
  match a, b with
  | Some (JsonDoc x), Some (JsonDoc y) =>
      data x = data y /\ totalTopics x = totalTopics y
      /\ top15Topics x = top15Topics y
  | Some (Workbook _ top all), Some (Workbook _ top' all') =>
      top = top' /\ all = all'
  | _, _ => a = b
  end.

(** The world [w] with another clock. *)
Definition at_time (now : string) (w : world) : world :=
  {| files := files w; clock := now; console := console w |}.

(** The world reached by [main], started in [w] on the table [rows], when
    the ranking has been printed and [save_json] is about to run. *)
Definition before_writers (w : world) (rows : list row) : world :=
  let topic_map := aggregate rows in
  let wordcloud_data := generate_wordcloud_data topic_map 15 in
  {| files := files w;
     clock := clock w;
     console :=
       (((((console w ++ [MsgStart]) ++ [MsgReading])
          ++ [MsgRowCount (len rows)])
         ++ [MsgTopicCount (len topic_map)])
        ++ [MsgTopHeader])
       ++ map (fun p => MsgTopItem (fst p) (name (snd p))
                                   (entry_count (snd p))
                                   (len (entry_repos (snd p))))
              (enumerate 1 wordcloud_data) |}.

(** A table of integers alone, as [iterrows] hands it over. *)
Definition integer_rows : list row :=
  [ {| repo_name := Int64 1; topics := Int64 7 |};
    {| repo_name := Int64 2; topics := Int64 7 |} ].

(** A label with a control character in it. *)
Definition control_rows : list row :=
  [ {| repo_name := Str "repoA";
       topics := Str (String "a" (String (ascii_of_nat 1) "b")) |} ].

Definition spec_rows : list row :=
  [ {| repo_name := Str "repoA"; topics := Str "Rust, CLI" |};
    {| repo_name := Str "repoB"; topics := Str "rust, networking" |};
    {| repo_name := Str "repoC"; topics := Str "" |} ].

(** * Properties *)

(** ** Smoke tests *)

Example ex_go :
  aggregate [ {| repo_name := Str "r"; topics := Str "  Go ,Go,go " |} ]
  = [("go", {| topic := "Go"; count := 3; repos := [Str "r"] |})].
Proof. vm_compute. reflexivity. Qed.

Example ex_str :
  (py_str (Int 0), py_str (Int (-12)), py_str (Int 2024)) = ("0", "-12", "2024").
Proof. reflexivity. Qed.

Example ex_split : split "," "a,,b," = ["a"; ""; "b"; ""].
Proof. reflexivity. Qed.

Example ex_strip :
  (strip "  a b  ", strip "   ", lower "RuSt-7") = ("a b", "", "rust-7").
Proof. reflexivity. Qed.

Example ex_spec_rank :
  generate_wordcloud_data (aggregate spec_rows) 2
  = [ {| name := "Rust"; value := 2; entry_count := 2;
         entry_repos := [Str "repoA"; Str "repoB"] |};
      {| name := "CLI"; value := 1; entry_count := 1;
         entry_repos := [Str "repoA"] |} ].
Proof. vm_compute. reflexivity. Qed.

Example ex_main_ok :
  let '(r, w) := main (world_with (Some spec_rows) "t0") in
  (r, written w OUTPUT_JSON, written w OUTPUT_CSV, written w OUTPUT_EXCEL)
  = (Ok tt, true, true, true).
Proof. vm_compute. reflexivity. Qed.

Example ex_main_nan :
  let '(r, w) := main (world_with (Some
      [ {| repo_name := Str "repoA"; topics := Str "go" |};
        {| repo_name := NaN 0; topics := Str "go" |} ]) "t0") in
  (r, written w OUTPUT_JSON, written w OUTPUT_CSV, written w OUTPUT_EXCEL)
  = (Raise TypeError, true, true, false).
Proof. vm_compute. reflexivity. Qed.

(** ** Strings *)

Lemma is_empty_true (s : string) : is_empty s = true <-> s = "".
Proof. destruct s; simpl; split; congruence. Qed.

Lemma is_empty_false (s : string) : is_empty s = false <-> s <> "".
Proof. destruct s; simpl; split; congruence. Qed.

Lemma lstrip_head (s : string) (c : ascii) :
  head_char (lstrip s) = Some c -> isspace c = false.
Proof.
  induction s as [|a s IH]; simpl; [discriminate|].
  destruct (isspace a) eqn:Ha; [exact IH|].
  simpl. intros [= <-]. exact Ha.
Qed.

Lemma rstrip_head (s : string) (c : ascii) :
  head_char (rstrip s) = Some c -> head_char s = Some c.
Proof.
  destruct s as [|a s]; simpl; [discriminate|].
  destruct (isspace a && is_empty (rstrip s)); simpl; [discriminate|auto].
Qed.

Lemma rstrip_last (s : string) (c : ascii) :
  last_char (rstrip s) = Some c -> isspace c = false.
Proof.
  induction s as [|a s IH]; simpl; [discriminate|].
  destruct (rstrip s) as [|b r] eqn:Hr; simpl.
  - rewrite andb_true_r. destruct (isspace a) eqn:Ha; simpl; [discriminate|].
    intros [= <-]. exact Ha.
  - rewrite andb_false_r. simpl. exact IH.
Qed.

Lemma strip_head (s : string) (c : ascii) :
  head_char (strip s) = Some c -> isspace c = false.
Proof. intros H. apply (lstrip_head s), rstrip_head, H. Qed.

Lemma strip_last (s : string) (c : ascii) :
  last_char (strip s) = Some c -> isspace c = false.
Proof. apply rstrip_last. Qed.

Lemma parse_topics_In (s t : string) :
  In t (parse_topics s) ->
  exists piece, In piece (split "," s) /\ t = strip piece /\ t <> "".
Proof.
  unfold parse_topics. rewrite in_map_iff.
  intros (piece & <- & Hin). apply filter_In in Hin as [Hin Hne].
  exists piece. repeat split; trivial.
  apply is_empty_false. now destruct (is_empty (strip piece)).
Qed.

(** ** The dictionary *)

Lemma dict_get_set_same (k : string) (v : TopicStat) (m : dict) :
  dict_get k (dict_set k v m) = Some v.
Proof.
  induction m as [|[k' v'] m IH]; simpl.
  - now rewrite String.eqb_refl.
  - destruct (String.eqb k k') eqn:E; simpl; rewrite E; auto.
Qed.

Lemma dict_get_set_other (k k' : string) (v : TopicStat) (m : dict) :
  k <> k' -> dict_get k' (dict_set k v m) = dict_get k' m.
Proof.
  intros Hne. induction m as [|[k0 v0] m IH]; simpl.
  - destruct (String.eqb_spec k' k); congruence.
  - destruct (String.eqb_spec k k0) as [->|Hk]; simpl.
    + destruct (String.eqb_spec k' k0); congruence.
    + now rewrite IH.
Qed.

Lemma dict_set_set (k : string) (v v' : TopicStat) (m : dict) :
  dict_set k v (dict_set k v' m) = dict_set k v m.
Proof.
  induction m as [|[k0 v0] m IH]; simpl.
  - now rewrite String.eqb_refl.
  - destruct (String.eqb k k0) eqn:E; simpl; rewrite E; congruence.
Qed.

Lemma dict_get_In (k : string) (v : TopicStat) (m : dict) :
  dict_get k m = Some v -> In (k, v) m.
Proof.
  induction m as [|[k0 v0] m IH]; simpl; [discriminate|].
  destruct (String.eqb_spec k k0) as [->|Hk].
  - intros [= ->]. now left.
  - auto.
Qed.

Lemma dict_get_None (k : string) (m : dict) :
  dict_get k m = None <-> ~ In k (dict_keys m).
Proof.
  induction m as [|[k0 v0] m IH]; simpl; [tauto|].
  destruct (String.eqb_spec k k0) as [->|Hk].
  - split; [discriminate|]. intros H. exfalso. apply H. now left.
  - rewrite IH. split; [intros H [E|E]; congruence|tauto].
Qed.

Lemma In_dict_get (k : string) (v : TopicStat) (m : dict) :
  NoDup (dict_keys m) -> In (k, v) m -> dict_get k m = Some v.
Proof.
  induction m as [|[k0 v0] m IH]; simpl; [tauto|].
  intros Hnd [E|Hin].
  - inversion E; subst. now rewrite String.eqb_refl.
  - inversion Hnd as [|? ? Hnotin Hnd']; subst.
    destruct (String.eqb_spec k k0) as [->|Hk]; [|auto].
    exfalso. apply Hnotin. change k0 with (fst (k0, v)). now apply in_map.
Qed.

Lemma dict_keys_set (k : string) (v : TopicStat) (m : dict) :
  dict_keys (dict_set k v m)
  = if dict_mem k m then dict_keys m else dict_keys m ++ [k].
Proof.
  unfold dict_mem. induction m as [|[k0 v0] m IH]; simpl; [reflexivity|].
  destruct (String.eqb k k0) eqn:E; simpl; [reflexivity|].
  rewrite IH. now destruct (dict_get k m).
Qed.

(** The loop body, as one update of the entry under the lower-cased label. *)
Lemma add_topic_eq (repo : cell) (m : dict) (t : string) :
  add_topic repo m t
  = dict_set (lower t)
      (bump repo (match dict_get (lower t) m with
                  | Some st => st
                  | None => fresh t
                  end)) m.
Proof.
  unfold add_topic, dict_mem, bump.
  destruct (dict_get (lower t) m) as [st|] eqn:Hget; simpl.
  - rewrite Hget.
    now destruct (truthy repo && negb (py_in repo (repos st))).
  - rewrite dict_get_set_same. simpl. rewrite dict_set_set.
    now destruct (truthy repo).
Qed.

Lemma dict_get_add_topic (repo : cell) (m : dict) (t k : string) :
  dict_get k (add_topic repo m t)
  = if has_key k t
    then Some (bump repo (match dict_get k m with
                          | Some st => st
                          | None => fresh t
                          end))
    else dict_get k m.
Proof.
  rewrite add_topic_eq. unfold has_key.
  destruct (String.eqb_spec (lower t) k) as [<-|Hne].
  - apply dict_get_set_same.
  - now apply dict_get_set_other.
Qed.

Lemma dict_keys_add_topic (repo : cell) (m : dict) (t : string) :
  dict_keys (add_topic repo m t)
  = if dict_mem (lower t) m then dict_keys m else dict_keys m ++ [lower t].
Proof. rewrite add_topic_eq. apply dict_keys_set. Qed.

(** ** The loop as one pass over the label occurrences *)

Lemma run_app (a b : list (cell * string)) (m : dict) :
  run (a ++ b) m = run b (run a m).
Proof. apply fold_left_app. Qed.

Lemma run_snoc (occ : list (cell * string)) (o : cell * string) (m : dict) :
  run (occ ++ [o]) m = add_topic (fst o) (run occ m) (snd o).
Proof. now rewrite run_app. Qed.

Lemma process_row_run (m : dict) (r : row) :
  process_row m r = run (map (pair (repo_name r)) (labels_of_row r)) m.
Proof.
  unfold process_row, labels_of_row, run.
  destruct (isna (topics r) || eq_empty_str (topics r)); [reflexivity|].
  generalize (parse_topics (py_str (topics r))) as l. intros l. revert m.
  induction l as [|t l IH]; intros m; simpl; [reflexivity|apply IH].
Qed.

Lemma fold_process_row_run (rows : list row) (m : dict) :
  fold_left process_row rows m = run (occurrences rows) m.
Proof.
  revert m. induction rows as [|r rows IH]; intros m; simpl; [reflexivity|].
  now rewrite run_app, IH, process_row_run.
Qed.

Lemma aggregate_run (rows : list row) :
  aggregate rows = run (occurrences rows) [].
Proof. apply fold_process_row_run. Qed.

Lemma occurrences_labels (rows : list row) :
  map snd (occurrences rows) = all_labels rows.
Proof.
  unfold occurrences, all_labels.
  induction rows as [|r rows IH]; simpl; [reflexivity|].
  rewrite map_app, IH, map_map. simpl. now rewrite map_id.
Qed.

(** ** Order of the keys *)

Lemma first_seen_In (k : string) (l : list string) :
  In k (first_seen l) <-> In k l.
Proof.
  induction l as [|a l IH]; simpl; [tauto|].
  rewrite filter_In, IH.
  destruct (String.eqb_spec k a) as [->|Hne]; simpl.
  - tauto.
  - split; [tauto|]. intros [E|H]; [congruence|tauto].
Qed.

Lemma first_seen_NoDup (l : list string) : NoDup (first_seen l).
Proof.
  induction l as [|a l IH]; simpl; constructor.
  - rewrite filter_In, String.eqb_refl. simpl. intros [_ H]. discriminate.
  - now apply NoDup_filter.
Qed.

Lemma first_seen_snoc (l : list string) (k : string) :
  first_seen (l ++ [k])
  = if existsb (String.eqb k) l then first_seen l else first_seen l ++ [k].
Proof.
  induction l as [|a l IH]; simpl.
  - reflexivity.
  - rewrite IH. destruct (String.eqb_spec k a) as [->|Hne]; simpl.
    + destruct (existsb (String.eqb a) l); [reflexivity|].
      rewrite filter_app. simpl. rewrite String.eqb_refl. simpl.
      now rewrite app_nil_r.
    + destruct (existsb (String.eqb k) l); [reflexivity|].
      rewrite filter_app. simpl.
      destruct (String.eqb_spec k a); [congruence|reflexivity].
Qed.

Lemma dict_mem_keys (k : string) (m : dict) :
  dict_mem k m = existsb (String.eqb k) (dict_keys m).
Proof.
  unfold dict_mem. induction m as [|[k0 v0] m IH]; simpl; [reflexivity|].
  destruct (String.eqb k k0); simpl; auto.
Qed.

Lemma existsb_first_seen (k : string) (l : list string) :
  existsb (String.eqb k) (first_seen l) = existsb (String.eqb k) l.
Proof.
  apply eq_true_iff_eq. rewrite !existsb_exists.
  split; intros (x & Hin & E); exists x; split; trivial;
    now apply first_seen_In.
Qed.

(** The keys of the mapping are the lower-cased labels, each once, in the
    order in which they are first met. *)
Lemma run_keys (occ : list (cell * string)) :
  dict_keys (run occ []) = first_seen (map (fun o => lower (snd o)) occ).
Proof.
  induction occ as [|o occ IH] using rev_ind; [reflexivity|].
  rewrite run_snoc, dict_keys_add_topic, map_app. simpl.
  rewrite first_seen_snoc, dict_mem_keys, IH, existsb_first_seen.
  reflexivity.
Qed.

Lemma aggregate_keys (rows : list row) :
  dict_keys (aggregate rows) = first_seen (map lower (all_labels rows)).
Proof.
  rewrite aggregate_run, run_keys, <- occurrences_labels, map_map.
  reflexivity.
Qed.

Lemma aggregate_keys_NoDup (rows : list row) :
  NoDup (dict_keys (aggregate rows)).
Proof. rewrite aggregate_keys. apply first_seen_NoDup. Qed.

(** ** The entry of one key *)

(** Python's equality on cells is an equivalence; it is coarser than
    identity of cells only in that an [int] equals the [numpy.int64] of the
    same value. *)
Lemma is_or_eq_refl (v : cell) : is_or_eq v v = true.
Proof.
  destruct v; simpl.
  - apply Nat.eqb_refl.
  - apply String.eqb_refl.
  - apply Z.eqb_refl.
  - apply Z.eqb_refl.
Qed.

Lemma is_or_eq_sym (a b : cell) : is_or_eq a b = is_or_eq b a.
Proof.
  destruct a, b; simpl; trivial.
  - apply Nat.eqb_sym.
  - apply String.eqb_sym.
  - apply Z.eqb_sym.
  - apply Z.eqb_sym.
  - apply Z.eqb_sym.
  - apply Z.eqb_sym.
Qed.

Lemma is_or_eq_trans (a b c : cell) :
  is_or_eq a b = true -> is_or_eq b c = true -> is_or_eq a c = true.
Proof.
  destruct a, b, c; simpl; try discriminate;
    rewrite ?Nat.eqb_eq, ?String.eqb_eq, ?Z.eqb_eq; congruence.
Qed.

Lemma py_in_In (v : cell) (l : list cell) : In v l -> py_in v l = true.
Proof.
  intros Hin. unfold py_in. apply existsb_exists. exists v.
  split; [exact Hin|apply is_or_eq_refl].
Qed.

Lemma py_in_false (v : cell) (l : list cell) : py_in v l = false -> ~ In v l.
Proof. intros H Hin. apply py_in_In in Hin. congruence. Qed.

Lemma py_in_app (v : cell) (l1 l2 : list cell) :
  py_in v (l1 ++ l2) = py_in v l1 || py_in v l2.
Proof. apply existsb_app. Qed.

Lemma matching_snoc (k : string) (occ : list (cell * string)) (o : cell * string) :
  matching k (occ ++ [o])
  = matching k occ ++ (if has_key k (snd o) then [o] else []).
Proof. unfold matching. rewrite filter_app. reflexivity. Qed.

Lemma len_snoc {A : Type} (l : list A) (x : A) : len (l ++ [x]) = len l + 1.
Proof. unfold len. rewrite length_app. simpl. lia. Qed.

Lemma bump_repos_In (repo : cell) (st : TopicStat) (c : cell) :
  In c (repos (bump repo st)) ->
  In c (repos st) \/ (truthy repo = true /\ c = repo).
Proof.
  unfold bump. simpl.
  destruct (truthy repo) eqn:Htr; simpl; [|tauto].
  destruct (py_in repo (repos st)) eqn:Hin; simpl; [tauto|].
  rewrite in_app_iff. simpl. intros [H|[<-|[]]]; auto.
Qed.

Lemma bump_repos_keeps (repo : cell) (st : TopicStat) (c : cell) :
  py_in c (repos st) = true -> py_in c (repos (bump repo st)) = true.
Proof.
  intros H. unfold bump. simpl.
  destruct (truthy repo && negb (py_in repo (repos st))); [|exact H].
  now rewrite py_in_app, H.
Qed.

Lemma bump_repos_has (repo : cell) (st : TopicStat) :
  truthy repo = true -> py_in repo (repos (bump repo st)) = true.
Proof.
  intros Htr. unfold bump. simpl. rewrite Htr. simpl.
  destruct (py_in repo (repos st)) eqn:Hin; simpl; [exact Hin|].
  rewrite py_in_app. simpl. now rewrite is_or_eq_refl, orb_true_r.
Qed.

Lemma bump_repos_NoDup (repo : cell) (st : TopicStat) :
  NoDup (repos st) -> NoDup (repos (bump repo st)).
Proof.
  intros Hnd. unfold bump. simpl.
  destruct (truthy repo); simpl; trivial.
  destruct (py_in repo (repos st)) eqn:Hin; simpl; trivial.
  apply py_in_false in Hin.
  apply NoDup_app; trivial.
  - repeat constructor. intros [].
  - intros x Hx [<-|[]]. contradiction.
Qed.

Lemma bump_repos_len (repo : cell) (st : TopicStat) :
  len (repos (bump repo st)) <= len (repos st) + 1.
Proof.
  unfold bump. simpl.
  destruct (truthy repo && negb (py_in repo (repos st))).
  - rewrite len_snoc. lia.
  - lia.
Qed.

Lemma bump_ok (k : string) (occ : list (cell * string)) (o : cell * string)
      (e : option TopicStat) :
  has_key k (snd o) = true ->
  entry_ok k occ e ->
  entry_ok k (occ ++ [o])
    (Some (bump (fst o) (match e with Some st => st | None => fresh (snd o) end))).
Proof.
  intros Hk He. destruct o as [repo t]. cbn [fst snd] in Hk |- *.
  unfold entry_ok. rewrite matching_snoc. cbn [snd]. rewrite Hk.
  rewrite len_snoc, map_app. cbn [map fst].
  destruct e as [st|]; simpl in He.
  - destruct He as (Hc & Ht & Hr & Hnd & Hle).
    split; [cbn [count bump]; lia|]. split.
    { destruct (matching k occ); [discriminate|exact Ht]. }
    destruct Hr as [Hsub Hhas]. split.
    { split.
      - intros c Hin. rewrite in_app_iff. simpl.
        apply bump_repos_In in Hin as [Hin|[Htr ->]]; [|auto].
        apply Hsub in Hin as [H1 H2]. auto.
      - intros c Htr Hin. apply in_app_or in Hin as [Hin|[<-|[]]].
        + apply bump_repos_keeps. now apply Hhas.
        + now apply bump_repos_has. }
    split; [now apply bump_repos_NoDup|].
    pose proof (bump_repos_len repo st). simpl count. lia.
  - rewrite He. split; [reflexivity|]. split; [reflexivity|].
    split.
    { split.
      - intros c Hin. simpl.
        apply bump_repos_In in Hin as [[]|[Htr ->]]. auto.
      - intros c Htr [<-|[]]. now apply bump_repos_has. }
    split; [apply bump_repos_NoDup; constructor|].
    pose proof (bump_repos_len repo (fresh t)). simpl in *. unfold len in *.
    simpl in *. lia.
Qed.

(** The invariant of the loop, key by key. *)
Lemma run_entry (occ : list (cell * string)) (k : string) :
  entry_ok k occ (dict_get k (run occ [])).
Proof.
  induction occ as [|o occ IH] using rev_ind; [reflexivity|].
  rewrite run_snoc, dict_get_add_topic.
  destruct (has_key k (snd o)) eqn:Hk.
  - now apply bump_ok.
  - destruct (dict_get k (run occ [])) as [st|]; simpl in *;
      rewrite matching_snoc, Hk, app_nil_r; exact IH.
Qed.

Lemma aggregate_entry (rows : list row) (k : string) (st : TopicStat) :
  In (k, st) (aggregate rows) ->
  entry_ok k (occurrences rows) (Some st).
Proof.
  intros Hin. apply In_dict_get in Hin; [|apply aggregate_keys_NoDup].
  rewrite <- Hin, aggregate_run. apply run_entry.
Qed.

(** ** Sorting and slicing *)

Section SortFacts.
Context {A : Type} (key : A -> Z).

Lemma insert_desc_perm (x : A) (l : list A) :
  Permutation (insert_desc key x l) (x :: l).
Proof.
  induction l as [|y l IH]; simpl; [reflexivity|].
  destruct (key y <=? key x); [reflexivity|].
  rewrite IH. apply perm_swap.
Qed.

Lemma sort_desc_perm (l : list A) : Permutation (sort_desc key l) l.
Proof.
  induction l as [|x l IH]; simpl; [reflexivity|].
  rewrite insert_desc_perm. now constructor.
Qed.

Lemma sort_desc_length (l : list A) :
  List.length (sort_desc key l) = List.length l.
Proof. apply Permutation_length, sort_desc_perm. Qed.

Lemma insert_desc_sorted (x : A) (l : list A) :
  StronglySorted (desc key) l -> StronglySorted (desc key) (insert_desc key x l).
Proof.
  induction 1 as [|y l Hs IH Hall]; simpl.
  - repeat constructor.
  - destruct (Z.leb_spec (key y) (key x)) as [Hle|Hgt].
    + constructor; [now constructor|].
      constructor; [exact Hle|].
      eapply Forall_impl; [|exact Hall]. unfold desc. intros; lia.
    + constructor; [exact IH|].
      eapply Permutation_Forall.
      * symmetry. apply insert_desc_perm.
      * constructor; [unfold desc; lia|exact Hall].
Qed.

Lemma sort_desc_sorted (l : list A) : StronglySorted (desc key) (sort_desc key l).
Proof.
  induction l as [|x l IH]; simpl; [constructor|].
  now apply insert_desc_sorted.
Qed.

Lemma insert_desc_filter (c : Z) (x : A) (l : list A) :
  filter (with_key key c) (insert_desc key x l)
  = filter (with_key key c) (x :: l).
Proof.
  induction l as [|y l IH]; [reflexivity|].
  cbn [insert_desc]. destruct (Z.leb_spec (key y) (key x)) as [Hle|Hgt];
    [reflexivity|].
  cbn [filter]. rewrite IH. cbn [filter]. unfold with_key.
  destruct (Z.eqb_spec (key x) c), (Z.eqb_spec (key y) c);
    try reflexivity. lia.
Qed.

(** Stability: the elements of one key come out in the order they went in. *)
Lemma sort_desc_stable (c : Z) (l : list A) :
  filter (with_key key c) (sort_desc key l) = filter (with_key key c) l.
Proof.
  induction l as [|x l IH]; [reflexivity|].
  cbn [sort_desc fold_right]. rewrite insert_desc_filter.
  cbn [filter]. fold (sort_desc key l). now rewrite IH.
Qed.

Lemma firstn_sorted (n : nat) (l : list A) :
  StronglySorted (desc key) l -> StronglySorted (desc key) (firstn n l).
Proof.
  intros Hs. revert n. induction Hs as [|y l Hs IH Hall]; intros [|n]; simpl;
    try constructor; auto.
  apply Forall_forall. intros z Hz.
  rewrite Forall_forall in Hall. apply Hall.
  rewrite <- (firstn_skipn n l). apply in_or_app. now left.
Qed.

Lemma slice_to_firstn (n : Z) (l : list A) :
  exists j, slice_to n l = firstn j l.
Proof. unfold slice_to. destruct (0 <=? n); eauto. Qed.

Lemma slice_to_prefix (n : Z) (l : list A) : prefix_of (slice_to n l) l.
Proof.
  destruct (slice_to_firstn n l) as [j ->].
  exists (skipn j l). symmetry. apply firstn_skipn.
Qed.

Lemma slice_to_length (n : Z) (l : list A) :
  len (slice_to n l)
  = if 0 <=? n then Z.min n (len l) else Z.max 0 (len l + n).
Proof.
  unfold slice_to, len.
  destruct (Z.leb_spec 0 n); rewrite length_firstn; lia.
Qed.

End SortFacts.

Lemma prefix_of_filter {A : Type} (p : A -> bool) (l1 l2 : list A) :
  prefix_of l1 l2 -> prefix_of (filter p l1) (filter p l2).
Proof. intros [rest ->]. exists (filter p rest). apply filter_app. Qed.

Lemma prefix_of_map {A B : Type} (f : A -> B) (l1 l2 : list A) :
  prefix_of l1 l2 -> prefix_of (map f l1) (map f l2).
Proof. intros [rest ->]. exists (map f rest). apply map_app. Qed.

Lemma filter_map_entry (c : Z) (l : list TopicStat) :
  filter (with_key entry_count c) (map to_entry l)
  = map to_entry (filter (with_key count c) l).
Proof.
  induction l as [|st l IH]; [reflexivity|].
  cbn [map filter]. rewrite IH. unfold with_key. cbn [to_entry entry_count].
  now destruct (count st =? c).
Qed.

Lemma map_entry_sorted (l : list TopicStat) :
  StronglySorted (desc count) l ->
  StronglySorted (desc entry_count) (map to_entry l).
Proof.
  induction 1 as [|st l Hs IH Hall]; simpl; constructor; trivial.
  apply Forall_map. exact Hall.
Qed.

(** ** Labels and occurrences *)

Lemma matching_labels (k : string) (occ : list (cell * string)) :
  map snd (matching k occ) = filter (has_key k) (map snd occ).
Proof.
  unfold matching. induction occ as [|o occ IH]; simpl; [reflexivity|].
  destruct (has_key k (snd o)); simpl; now rewrite IH.
Qed.

Lemma matching_first (k : string) (occ : list (cell * string)) :
  option_map snd (hd_error (matching k occ)) = find (has_key k) (map snd occ).
Proof.
  unfold matching. induction occ as [|o occ IH]; simpl; [reflexivity|].
  destruct (has_key k (snd o)); simpl; [reflexivity|exact IH].
Qed.

Lemma matching_len (k : string) (rows : list row) :
  len (matching k (occurrences rows)) = len (filter (has_key k) (all_labels rows)).
Proof.
  unfold len. rewrite <- occurrences_labels, <- matching_labels, length_map.
  reflexivity.
Qed.

Lemma all_labels_In (t : string) (rows : list row) :
  In t (all_labels rows) <-> exists r, In r rows /\ In t (labels_of_row r).
Proof. unfold all_labels. apply in_flat_map. Qed.

Lemma labels_of_row_In (t : string) (r : row) :
  In t (labels_of_row r) ->
  t <> ""
  /\ (forall c, head_char t = Some c -> isspace c = false)
  /\ (forall c, last_char t = Some c -> isspace c = false).
Proof.
  unfold labels_of_row.
  destruct (isna (topics r) || eq_empty_str (topics r)); [intros []|].
  intros Hin. apply parse_topics_In in Hin as (piece & _ & -> & Hne).
  repeat split; trivial; intros c Hc.
  - now apply (strip_head piece).
  - now apply (strip_last piece).
Qed.

Lemma filter_nil_iff {A : Type} (p : A -> bool) (l : list A) :
  filter p l = [] <-> forall x, In x l -> p x = false.
Proof.
  induction l as [|a l IH]; simpl; [tauto|].
  destruct (p a) eqn:Ha.
  - split; [discriminate|]. intros H. specialize (H a (or_introl eq_refl)).
    congruence.
  - rewrite IH. split.
    + intros H x [<-|Hx]; auto.
    + intros H x Hx. apply H. now right.
Qed.

(** A row that lists no label twice, case aside, adds at most one to a key. *)
Lemma once_per_row (k : string) (l : list string) :
  NoDup (map lower l) ->
  len (filter (has_key k) l) = if existsb (has_key k) l then 1 else 0.
Proof.
  unfold len. induction l as [|t l IH]; simpl; [reflexivity|].
  intros Hnd. inversion Hnd as [|? ? Hnotin Hnd']; subst.
  destruct (has_key k t) eqn:Hk; simpl.
  - assert (Hnone : filter (has_key k) l = []).
    { apply filter_nil_iff. intros x Hx. unfold has_key in *.
      apply String.eqb_eq in Hk. destruct (String.eqb_spec (lower x) k); trivial.
      exfalso. apply Hnotin. rewrite Hk, <- e. now apply in_map. }
    now rewrite Hnone.
  - now apply IH.
Qed.

Lemma record_count (k : string) (rows : list row) :
  (forall r, In r rows -> NoDup (map lower (labels_of_row r))) ->
  len (filter (has_key k) (all_labels rows)) = len (filter (contains_label k) rows).
Proof.
  unfold all_labels. induction rows as [|r rows IH]; intros Hnd; [reflexivity|].
  cbn [flat_map filter]. rewrite filter_app.
  assert (Hr := once_per_row k (labels_of_row r) (Hnd r (or_introl eq_refl))).
  assert (Hrest : len (filter (has_key k) (flat_map labels_of_row rows))
                  = len (filter (contains_label k) rows)).
  { apply IH. intros r' Hr'. apply Hnd. now right. }
  unfold len in *. rewrite length_app. unfold contains_label at 1.
  destruct (existsb (has_key k) (labels_of_row r)); simpl; lia.
Qed.


(** ** Counts *)

Lemma aggregate_get (rows : list row) (k : string) (st : TopicStat) :
  In (k, st) (aggregate rows) <-> dict_get k (aggregate rows) = Some st.
Proof.
  split.
  - apply In_dict_get, aggregate_keys_NoDup.
  - apply dict_get_In.
Qed.

(** C1, as stated, fails: one record that spells the same label three
    times yields count 3, while a single record lists the label. *)
Lemma count_exceeds_record_count :
  let rows := [go_row (Str "r")] in
  let st := {| topic := "Go"; count := 3; repos := [Str "r"] |} in
  In ("go", st) (aggregate rows)
  /\ count st <> len (filter (contains_label "go") rows).
Proof.
  split.
  - vm_compute. left. reflexivity.
  - vm_compute. discriminate.
Qed.

(** C1, amended: the count of every produced TopicStat is the number of
    label occurrences, over all records, whose lower-case form is the key;
    when no record repeats a label (case aside) it is the number of
    records whose label list contains the label. *)
Theorem count_is_occurrences (rows : list row) (k : string) (st : TopicStat) :
  In (k, st) (aggregate rows) ->
  count st = len (filter (has_key k) (all_labels rows))
  /\ ((forall r, In r rows -> NoDup (map lower (labels_of_row r))) ->
      count st = len (filter (contains_label k) rows)).
Proof.
  intros Hin. apply aggregate_entry in Hin. destruct Hin as (Hc & _).
  rewrite matching_len in Hc. split; [exact Hc|].
  intros Hnd. rewrite Hc. now apply record_count.
Qed.

Lemma count_is_occurrences_witness :
  let st := {| topic := "Rust"; count := 2;
               repos := [Str "repoA"; Str "repoB"] |} in
  count st = len (filter (has_key "rust") (all_labels spec_rows))
  /\ ((forall r, In r spec_rows -> NoDup (map lower (labels_of_row r))) ->
      count st = len (filter (contains_label "rust") spec_rows)).
Proof.
  apply (count_is_occurrences spec_rows "rust"). vm_compute. left. reflexivity.
Defined.

(** C9: in the mapping returned by the aggregation every repos list is no
    longer than the count, and every count is at least 1. *)
Theorem repos_at_most_count (rows : list row) (k : string) (st : TopicStat) :
  In (k, st) (aggregate rows) ->
  len (repos st) <= count st /\ 1 <= count st.
Proof.
  intros Hin. apply aggregate_entry in Hin.
  destruct Hin as (Hc & Ht & _ & _ & Hle). split; [exact Hle|].
  rewrite Hc. destruct (matching k (occurrences rows)); [discriminate|].
  unfold len. simpl. lia.
Qed.

Lemma repos_at_most_count_witness :
  let st := {| topic := "Rust"; count := 2;
               repos := [Str "repoA"; Str "repoB"] |} in
  len (repos st) <= count st /\ 1 <= count st.
Proof.
  apply (repos_at_most_count spec_rows "rust"). vm_compute. left. reflexivity.
Defined.

(** ** The worked example *)





(** ** Rows without topics *)

Lemma count_topics_run (csv_path : path) (w : world) (rows : list row) :
  files w csv_path = Some (Table rows) ->
  count_topics_from_csv csv_path w
  = (Ok (aggregate rows),
     {| files := files w; clock := clock w;
        console := (console w ++ [MsgReading]) ++ [MsgRowCount (len rows)] |}).
Proof.
  intros Hf. unfold count_topics_from_csv, bind, print, read_csv, ret.
  simpl. now rewrite Hf.
Qed.

Lemma aggregate_app (before after : list row) :
  aggregate (before ++ after) = fold_left process_row after (aggregate before).
Proof. apply fold_left_app. Qed.

Lemma process_row_skip (m : dict) (r : row) :
  isna (topics r) = true \/ topics r = Str "" -> process_row m r = m.
Proof.
  intros [H|H]; unfold process_row; rewrite H; reflexivity.
Qed.

(** C3, as stated, fails for a topics cell that is neither missing nor a
    string: the integer 7 is turned into the label "7" and counted. *)
Lemma numeric_topics_are_counted :
  not_a_string (topics numeric_row) = true
  /\ process_row [] numeric_row
     = [("7", {| topic := "7"; count := 1; repos := [Str "r"] |})]
  /\ process_row [] numeric_row <> [].
Proof. vm_compute. repeat split. discriminate. Qed.

(** C3, amended: a record whose topics cell is missing (NaN) or the empty
    string leaves the mapping as it is, so the result is the one obtained
    without that record, and reading a table that holds such a record
    raises nothing; a cell that is not a string and not missing is passed
    through [str] and its labels are counted like any others. *)
Theorem skips_missing_or_empty (r : row) :
  isna (topics r) = true \/ topics r = Str "" ->
  (forall m, process_row m r = m)
  /\ (forall before after,
         aggregate (before ++ r :: after) = aggregate (before ++ after))
  /\ (forall w before after,
         files w INPUT_CSV = Some (Table (before ++ r :: after)) ->
         fst (count_topics_from_csv INPUT_CSV w)
         = Ok (aggregate (before ++ after)))
  /\ (forall m repo z,
         process_row m {| repo_name := repo; topics := Int z |}
         = fold_left (add_topic repo) (parse_topics (py_str (Int z))) m).
Proof.
  intros Hskip.
  assert (Hdrop : forall before after,
             aggregate (before ++ r :: after) = aggregate (before ++ after)).
  { intros before after. rewrite !aggregate_app. cbn [fold_left].
    now rewrite process_row_skip. }
  split; [intros m; now apply process_row_skip|].
  split; [exact Hdrop|]. split.
  - intros w before after Hf. rewrite (count_topics_run _ _ _ Hf). simpl.
    now rewrite Hdrop.
  - reflexivity.
Qed.

Lemma skips_missing_or_empty_witness :
  let r := {| repo_name := Str "repoC"; topics := NaN 0 |} in
  (forall m, process_row m r = m)
  /\ (forall before after,
         aggregate (before ++ r :: after) = aggregate (before ++ after))
  /\ (forall w before after,
         files w INPUT_CSV = Some (Table (before ++ r :: after)) ->
         fst (count_topics_from_csv INPUT_CSV w)
         = Ok (aggregate (before ++ after)))
  /\ (forall m repo z,
         process_row m {| repo_name := repo; topics := Int z |}
         = fold_left (add_topic repo) (parse_topics (py_str (Int z))) m).
Proof.
  apply (skips_missing_or_empty {| repo_name := Str "repoC"; topics := NaN 0 |}).
  left. reflexivity.
Defined.

(** ** Keys and display labels *)

Lemma entry_label (rows : list row) (k : string) (st : TopicStat) :
  In (k, st) (aggregate rows) ->
  find (has_key k) (all_labels rows) = Some (topic st).
Proof.
  intros Hin. apply aggregate_entry in Hin. destruct Hin as (_ & Ht & _).
  now rewrite matching_first, occurrences_labels in Ht.
Qed.

Lemma label_has_entry (rows : list row) (t : string) :
  In t (all_labels rows) ->
  exists st, dict_get (lower t) (aggregate rows) = Some st.
Proof.
  intros Hin. pose proof (run_entry (occurrences rows) (lower t)) as He.
  rewrite <- aggregate_run in He.
  destruct (dict_get (lower t) (aggregate rows)) as [st|]; [eauto|].
  simpl in He. exfalso.
  assert (Hnil : filter (has_key (lower t)) (all_labels rows) = []).
  { now rewrite <- occurrences_labels, <- matching_labels, He. }
  rewrite filter_nil_iff in Hnil. specialize (Hnil t Hin).
  unfold has_key in Hnil. now rewrite String.eqb_refl in Hnil.
Qed.

(** C5: labels that differ only in letter case share one TopicStat, stored
    under their common lower-case form, and its display label is the first
    spelling met in scan order. *)
Theorem case_variants_merge (rows : list row) (a b : string) :
  In a (all_labels rows) -> In b (all_labels rows) -> lower a = lower b ->
  exists st,
    dict_get (lower a) (aggregate rows) = Some st
    /\ dict_get (lower b) (aggregate rows) = Some st
    /\ (forall st', In (lower a, st') (aggregate rows) -> st' = st)
    /\ find (has_key (lower a)) (all_labels rows) = Some (topic st)
    /\ NoDup (dict_keys (aggregate rows)).
Proof.
  intros Ha Hb Hab. destruct (label_has_entry rows a Ha) as [st Hst].
  exists st. split; [exact Hst|]. split; [now rewrite <- Hab|]. split.
  - intros st' Hin. apply aggregate_get in Hin. congruence.
  - split; [|apply aggregate_keys_NoDup].
    apply entry_label. now apply aggregate_get.
Qed.

Lemma case_variants_merge_witness :
  exists st,
    dict_get (lower "Rust") (aggregate spec_rows) = Some st
    /\ dict_get (lower "rust") (aggregate spec_rows) = Some st
    /\ (forall st', In (lower "Rust", st') (aggregate spec_rows) -> st' = st)
    /\ find (has_key (lower "Rust")) (all_labels spec_rows) = Some (topic st)
    /\ NoDup (dict_keys (aggregate spec_rows)).
Proof.
  apply (case_variants_merge spec_rows "Rust" "rust").
  - vm_compute. left. reflexivity.
  - vm_compute. right. right. left. reflexivity.
  - reflexivity.
Defined.

(** C10: in the mapping returned by the aggregation every key is the
    lower-case form of its entry's display label, and the display label is
    non-empty and neither starts nor ends with a blank. *)
Theorem key_is_lower_label (rows : list row) (k : string) (st : TopicStat) :
  In (k, st) (aggregate rows) ->
  k = lower (topic st)
  /\ topic st <> ""
  /\ (forall c, head_char (topic st) = Some c -> isspace c = false)
  /\ (forall c, last_char (topic st) = Some c -> isspace c = false).
Proof.
  intros Hin. apply entry_label in Hin. apply find_some in Hin as [Hin Hk].
  split.
  - unfold has_key in Hk. apply String.eqb_eq in Hk. now symmetry.
  - apply all_labels_In in Hin as (r & _ & Hr). now apply (labels_of_row_In _ r).
Qed.

Lemma key_is_lower_label_witness :
  let st := {| topic := "Rust"; count := 2;
               repos := [Str "repoA"; Str "repoB"] |} in
  "rust" = lower (topic st)
  /\ topic st <> ""
  /\ (forall c, head_char (topic st) = Some c -> isspace c = false)
  /\ (forall c, last_char (topic st) = Some c -> isspace c = false).
Proof.
  apply (key_is_lower_label spec_rows "rust"). vm_compute. left. reflexivity.
Defined.

(** ** Ranking *)

Lemma generate_prefix (m : dict) (top_n : Z) :
  prefix_of (generate_wordcloud_data m top_n)
            (map to_entry (sort_desc count (dict_values m))).
Proof. apply prefix_of_map, slice_to_prefix. Qed.

Lemma generate_sorted (m : dict) (top_n : Z) :
  StronglySorted (desc entry_count) (generate_wordcloud_data m top_n).
Proof.
  unfold generate_wordcloud_data.
  destruct (slice_to_firstn top_n (sort_desc count (dict_values m))) as [j ->].
  apply map_entry_sorted, firstn_sorted, sort_desc_sorted.
Qed.

Lemma generate_length (m : dict) (top_n : Z) :
  len (generate_wordcloud_data m top_n)
  = if 0 <=? top_n then Z.min top_n (len m) else Z.max 0 (len m + top_n).
Proof.
  unfold generate_wordcloud_data.
  assert (E : len (sort_desc count (dict_values m)) = len m).
  { unfold len, dict_values. now rewrite sort_desc_length, length_map. }
  rewrite <- E, <- slice_to_length. unfold len. now rewrite length_map.
Qed.

(** Entries of equal count come out in the order of the mapping. *)
Lemma generate_stable (m : dict) (top_n : Z) (c : Z) :
  prefix_of (filter (with_key entry_count c) (generate_wordcloud_data m top_n))
            (map to_entry (filter (with_key count c) (dict_values m))).
Proof.
  rewrite <- (sort_desc_stable count c (dict_values m)), <- filter_map_entry.
  apply prefix_of_filter, generate_prefix.
Qed.

(** A negative bound is no count of entries: the slice then drops
    entries from the end, and the length follows another rule
    than the minimum. *)
Lemma negative_top_n_keeps_a_prefix :
  len (aggregate spec_rows) = 3
  /\ len (generate_wordcloud_data (aggregate spec_rows) (-1)) = 2
  /\ len (generate_wordcloud_data (aggregate spec_rows) (-1))
     <> Z.min (-1) (len (aggregate spec_rows)).
Proof. vm_compute. repeat split. discriminate. Qed.

(** C4: for every mapping and every cutoff top_n, a number of entries
    and so not negative (the script passes 15), the ranking has length
    min(top_n, number of labels), is sorted by count descending, and lists
    entries of equal count in the order in which their labels entered the
    mapping; for the mapping built by the aggregation that is the order in
    which the labels are first met. *)
Theorem rank_spec (m : dict) (top_n : Z) :
  0 <= top_n ->
  len (generate_wordcloud_data m top_n) = Z.min top_n (len m)
  /\ StronglySorted (desc entry_count) (generate_wordcloud_data m top_n)
  /\ (forall c,
         prefix_of (filter (with_key entry_count c) (generate_wordcloud_data m top_n))
                   (map to_entry (filter (with_key count c) (dict_values m))))
  /\ (exists ranked,
         Permutation ranked (dict_values m)
         /\ prefix_of (generate_wordcloud_data m top_n) (map to_entry ranked))
  /\ (forall rows, m = aggregate rows ->
         dict_keys m = first_seen (map lower (all_labels rows))).
Proof.
  intros Hn. split.
  - rewrite generate_length. destruct (Z.leb_spec 0 top_n); [reflexivity|lia].
  - split; [apply generate_sorted|]. split; [apply generate_stable|]. split.
    + exists (sort_desc count (dict_values m)). split.
      * apply sort_desc_perm.
      * apply generate_prefix.
    + intros rows ->. apply aggregate_keys.
Qed.

Lemma rank_spec_witness :
  let m := aggregate spec_rows in
  len (generate_wordcloud_data m 2) = Z.min 2 (len m)
  /\ StronglySorted (desc entry_count) (generate_wordcloud_data m 2)
  /\ (forall c,
         prefix_of (filter (with_key entry_count c) (generate_wordcloud_data m 2))
                   (map to_entry (filter (with_key count c) (dict_values m))))
  /\ (exists ranked,
         Permutation ranked (dict_values m)
         /\ prefix_of (generate_wordcloud_data m 2) (map to_entry ranked))
  /\ (forall rows, m = aggregate rows ->
         dict_keys m = first_seen (map lower (all_labels rows))).
Proof. apply (rank_spec (aggregate spec_rows) 2). lia. Defined.

(** ** Repository lists *)

Lemma matching_repos (k : string) (rows : list row) (c : cell) :
  In c (map fst (matching k (occurrences rows)))
  <-> exists r, In r rows /\ repo_name r = c /\ contains_label k r = true.
Proof.
  unfold matching, occurrences, contains_label. rewrite in_map_iff. split.
  - intros ([c' t] & Hc & Hin). simpl in Hc. subst c'.
    apply filter_In in Hin as [Hin Hk]. simpl in Hk.
    apply in_flat_map in Hin as (r & Hr & Hin).
    apply in_map_iff in Hin as (t' & E & Ht). inversion E; subst.
    exists r. repeat split; trivial. apply existsb_exists. eauto.
  - intros (r & Hr & <- & Hk). apply existsb_exists in Hk as (t & Ht & Hk).
    exists (repo_name r, t). split; [reflexivity|].
    apply filter_In. split; [|exact Hk].
    apply in_flat_map. exists r. split; trivial. now apply in_map.
Qed.

(** What the code does keep in a repos list: cells that Python takes for
    true, each coming from a record that lists the label, none twice; and
    every such cell of such a record is found in the list by [in]. *)
Lemma repos_spec (rows : list row) (k : string) (st : TopicStat) :
  In (k, st) (aggregate rows) ->
  NoDup (repos st)
  /\ (forall c, In c (repos st) ->
                truthy c = true
                /\ exists r, In r rows /\ repo_name r = c
                             /\ contains_label k r = true)
  /\ (forall r, In r rows -> contains_label k r = true ->
                truthy (repo_name r) = true ->
                py_in (repo_name r) (repos st) = true).
Proof.
  intros Hin. apply aggregate_entry in Hin.
  destruct Hin as (_ & _ & [Hsub Hhas] & Hnd & _). split; [exact Hnd|]. split.
  - intros c Hc. apply Hsub in Hc as [Htr Hc]. split; [exact Htr|].
    now apply matching_repos.
  - intros r Hr Hk Htr. apply Hhas; [exact Htr|].
    apply matching_repos. exists r. auto.
Qed.

(** C6, where the code departs from it: the blank repository cell of the
    second record, a NaN, passes the truth test and is appended to the
    repos list of "go". *)
Theorem blank_repo_is_recorded :
  aggregate blank_repo_rows
  = [("go", {| topic := "go"; count := 2; repos := [Str "repoA"; NaN 0] |})]
  /\ isna (NaN 0) = true.
Proof. vm_compute. split; reflexivity. Qed.

(** ** Effects: the input table is only read *)

Lemma keeps_ret {A : Type} (a : A) : keeps_input (ret a).
Proof. intros w. reflexivity. Qed.

Lemma keeps_lift {A : Type} (r : result A) : keeps_input (lift r).
Proof. intros w. reflexivity. Qed.

Lemma keeps_print (msg : message) : keeps_input (print msg).
Proof. intros w. reflexivity. Qed.

Lemma keeps_path_exists (p : path) : keeps_input (path_exists p).
Proof. intros w. reflexivity. Qed.

Lemma keeps_timestamp_now : keeps_input timestamp_now.
Proof. intros w. reflexivity. Qed.

Lemma keeps_read_csv (p : path) : keeps_input (read_csv p).
Proof.
  intros w. unfold read_csv. destruct (files w p) as [[]|]; reflexivity.
Qed.

Lemma keeps_write_file (p : path) (c : content) :
  p <> INPUT_CSV -> keeps_input (write_file p c).
Proof. intros Hp w. simpl. destruct p; simpl; congruence. Qed.

Lemma keeps_bind {A B : Type} (c : M A) (k : A -> M B) :
  keeps_input c -> (forall a, keeps_input (k a)) -> keeps_input (bind c k).
Proof.
  intros Hc Hk w. unfold bind. specialize (Hc w).
  destruct (c w) as [[a|e] w']; simpl in *.
  - now rewrite Hk.
  - exact Hc.
Qed.

Lemma keeps_for_each {A : Type} (body : A -> M unit) (l : list A) :
  (forall x, keeps_input (body x)) -> keeps_input (for_each body l).
Proof.
  intros Hb. induction l as [|x l IH]; simpl.
  - apply keeps_ret.
  - apply keeps_bind; auto.
Qed.

Create HintDb keeps discriminated.
#[local] Hint Resolve keeps_ret keeps_lift keeps_print keeps_path_exists
  keeps_timestamp_now keeps_read_csv keeps_for_each : keeps.
#[local] Hint Extern 1 (keeps_input (write_file _ _)) =>
  apply keeps_write_file; discriminate : keeps.
#[local] Hint Extern 2 (keeps_input (bind _ _)) =>
  apply keeps_bind; [|intros ?] : keeps.
#[local] Hint Extern 3 (keeps_input (if ?b then _ else _)) =>
  destruct b : keeps.

Lemma keeps_count_topics (p : path) : keeps_input (count_topics_from_csv p).
Proof. unfold count_topics_from_csv. auto 10 with keeps. Qed.

Lemma keeps_save_json (data : list RankedEntry) (m : dict) :
  keeps_input (save_json data m).
Proof. unfold save_json. auto 10 with keeps. Qed.

Lemma keeps_save_csv (data : list RankedEntry) : keeps_input (save_csv data).
Proof. unfold save_csv. auto 10 with keeps. Qed.

Lemma keeps_save_excel (data : list RankedEntry) (m : dict) :
  keeps_input (save_excel data m).
Proof.
  unfold save_excel. apply keeps_bind; [auto with keeps|intros df1].
  apply keeps_bind; [auto with keeps|intros df2].
  destruct (to_excel df1) as [[]|e]; [destruct (to_excel df2) as [[]|e]|];
    auto 10 with keeps.
Qed.

#[local] Hint Resolve keeps_count_topics keeps_save_json keeps_save_csv
  keeps_save_excel : keeps.

Lemma keeps_main : keeps_input main.
Proof.
  unfold main. apply keeps_bind; [auto with keeps|intros _].
  apply keeps_bind; [auto with keeps|intros found].
  destruct (negb found); [auto with keeps|].
  apply keeps_bind; [auto with keeps|intros topic_map].
  apply keeps_bind; [auto with keeps|intros _].
  apply keeps_bind; [auto with keeps|intros _].
  apply keeps_bind.
  { apply keeps_for_each. intros [i item]. auto with keeps. }
  intros _. auto 12 with keeps.
Qed.

(** The value of [count_topics_from_csv] is a function of the input file. *)
Lemma count_topics_value (p : path) (w : world) :
  fst (count_topics_from_csv p w)
  = match files w p with
    | Some (Table rows) => Ok (aggregate rows)
    | Some _ => Raise ParserError
    | None => Raise FileNotFoundError
    end.
Proof.
  unfold count_topics_from_csv, bind, print, read_csv, ret. simpl.
  destruct (files w p) as [[]|]; reflexivity.
Qed.

(** C8: the mapping computed by the aggregation depends on the input table
    alone: two runs over the same table, in whatever worlds (clock, console
    and earlier outputs), return the same mapping, and so does a second run
    after a first one or after a whole run of the script. *)
Theorem aggregation_is_deterministic (w1 w2 : world) :
  files w1 INPUT_CSV = files w2 INPUT_CSV ->
  fst (count_topics_from_csv INPUT_CSV w1)
  = fst (count_topics_from_csv INPUT_CSV w2)
  /\ fst (count_topics_from_csv INPUT_CSV
            (snd (count_topics_from_csv INPUT_CSV w1)))
     = fst (count_topics_from_csv INPUT_CSV w1)
  /\ fst (count_topics_from_csv INPUT_CSV (snd (main w1)))
     = fst (count_topics_from_csv INPUT_CSV w1).
Proof.
  intros Hsame. rewrite !count_topics_value.
  rewrite (keeps_count_topics INPUT_CSV w1), (keeps_main w1), Hsame.
  repeat split.
Qed.

Lemma aggregation_is_deterministic_witness :
  let w1 := world_with (Some spec_rows) "2024-01-01T00:00:00" in
  let w2 := snd (main (world_with (Some spec_rows) "2025-06-30T12:00:00")) in
  fst (count_topics_from_csv INPUT_CSV w1)
  = fst (count_topics_from_csv INPUT_CSV w2)
  /\ fst (count_topics_from_csv INPUT_CSV
            (snd (count_topics_from_csv INPUT_CSV w1)))
     = fst (count_topics_from_csv INPUT_CSV w1)
  /\ fst (count_topics_from_csv INPUT_CSV (snd (main w1)))
     = fst (count_topics_from_csv INPUT_CSV w1).
Proof.
  apply (aggregation_is_deterministic
           (world_with (Some spec_rows) "2024-01-01T00:00:00")
           (snd (main (world_with (Some spec_rows) "2025-06-30T12:00:00")))).
  vm_compute. reflexivity.
Defined.

(** ** Effects: what the script writes *)

Lemma for_each_print {A : Type} (body : A -> M unit) (f : A -> message)
      (l : list A) (w : world) :
  (forall x, body x = print (f x)) ->
  for_each body l w
  = (Ok tt, {| files := files w; clock := clock w;
               console := console w ++ map f l |}).
Proof.
  intros Hb. revert w. induction l as [|x l IH]; intros w; simpl.
  - unfold ret. rewrite app_nil_r. now destruct w.
  - unfold bind. rewrite Hb. simpl. rewrite IH. simpl.
    now rewrite <- app_assoc.
Qed.

Lemma join_cells_ok (l : list cell) :
  Forall (fun c => is_str c = true) l -> exists ss, join_cells l = Ok ss.
Proof.
  induction 1 as [|c l Hc _ [ss IH]]; simpl; [eauto|].
  destruct c; try discriminate. rewrite IH. eauto.
Qed.

Lemma Forall_slice_to {A : Type} (P : A -> Prop) (n : Z) (l : list A) :
  Forall P l -> Forall P (slice_to n l).
Proof.
  intros H. destruct (slice_to_prefix n l) as [rest E].
  rewrite E in H. now apply Forall_app in H.
Qed.

Lemma sheet_lines_ok (l : list (string * Z * list cell)) (start : Z) :
  Forall (fun x => Forall (fun c => is_str c = true) (snd x)) l ->
  exists lines, sheet_lines (enumerate start l) = Ok lines.
Proof.
  intros H. revert start. induction H as [|[[label n] rs] l Hrs _ IH];
    intros start; simpl; [eauto|].
  unfold join_repos.
  destruct (join_cells_ok (slice_to 10 rs)) as [ss ->].
  { now apply Forall_slice_to. }
  destruct (IH (start + 1)) as [lines ->]. eauto.
Qed.

(** Without an input table the script reports it and touches no file. *)
Lemma main_missing_input (w : world) :
  files w INPUT_CSV = None ->
  main w = (Ok tt, {| files := files w; clock := clock w;
                      console := (console w ++ [MsgStart]) ++ [MsgMissingInput] |}).
Proof.
  intros Hf. unfold main, bind, print, path_exists. simpl. now rewrite Hf.
Qed.

Lemma textual_repos (rows : list row) :
  Forall (fun r => truthy (repo_name r) = true -> is_str (repo_name r) = true) rows ->
  Forall (fun st => Forall (fun c => is_str c = true) (repos st))
         (dict_values (aggregate rows)).
Proof.
  intros Hrows. apply Forall_forall. intros st Hst.
  apply in_map_iff in Hst as ([k st'] & E & Hin). simpl in E. subst st'.
  apply Forall_forall. intros c Hc.
  destruct (repos_spec rows k st Hin) as (_ & Hsub & _).
  apply Hsub in Hc as (Htr & r & Hr & <- & _).
  rewrite Forall_forall in Hrows. now apply Hrows.
Qed.

(** C7, where the code departs from it: the input table exists, yet the
    run stops with a TypeError inside [save_excel], after the JSON and CSV
    artifacts have been written and before the spreadsheet is.  The NaN
    kept in a repos list (see [blank_repo_is_recorded]) cannot be joined. *)
Theorem blank_repo_leaves_partial_output :
  fst (main (world_with (Some blank_repo_rows) "2024-01-01T00:00:00"))
  = Raise TypeError
  /\ written (snd (main (world_with (Some blank_repo_rows) "2024-01-01T00:00:00")))
             OUTPUT_JSON = true
  /\ written (snd (main (world_with (Some blank_repo_rows) "2024-01-01T00:00:00")))
             OUTPUT_CSV = true
  /\ written (snd (main (world_with (Some blank_repo_rows) "2024-01-01T00:00:00")))
             OUTPUT_EXCEL = false.
Proof. vm_compute. repeat split. Qed.

(** * Further properties of the aggregation *)

(** X1: a key is in the mapping exactly when some label of the table has
    it as lower-case form; the mapping is empty exactly when no record
    contributes a label. *)
Theorem key_iff_label (rows : list row) :
  (forall k, In k (dict_keys (aggregate rows))
             <-> exists t, In t (all_labels rows) /\ lower t = k)
  /\ (aggregate rows = [] <-> all_labels rows = []).
Proof.
  assert (Hk : forall k, In k (dict_keys (aggregate rows))
                         <-> exists t, In t (all_labels rows) /\ lower t = k).
  { intros k. rewrite aggregate_keys, first_seen_In, in_map_iff.
    split; intros (t & H1 & H2); exists t; auto. }
  split; [exact Hk|]. split.
  - intros E. destruct (all_labels rows) as [|t l] eqn:El; [reflexivity|].
    exfalso. assert (Hin : In (lower t) (dict_keys (aggregate rows))).
    { apply Hk. exists t. split; [now left|reflexivity]. }
    rewrite E in Hin. exact Hin.
  - intros E. destruct (aggregate rows) as [|[k st] m] eqn:Em; [reflexivity|].
    exfalso. assert (Hin : In k (dict_keys ((k, st) :: m))) by now left.
    apply Hk in Hin as (t & Ht & _). now rewrite E in Ht.
Qed.

Lemma total_count_set (k : string) (v : TopicStat) (m : dict) :
  total_count (dict_set k v m) = total_count m + count v - count_of k m.
Proof.
  unfold count_of. induction m as [|[k0 v0] m IH]; simpl; [lia|].
  destruct (String.eqb k k0); simpl; lia.
Qed.

Lemma total_count_add_topic (repo : cell) (m : dict) (t : string) :
  total_count (add_topic repo m t) = total_count m + 1.
Proof.
  rewrite add_topic_eq, total_count_set. unfold count_of.
  destruct (dict_get (lower t) m); simpl; lia.
Qed.

Lemma total_count_run (occ : list (cell * string)) (m : dict) :
  total_count (run occ m) = total_count m + len occ.
Proof.
  revert m. induction occ as [|o occ IH]; intros m.
  - unfold run, len. simpl. lia.
  - change (run (o :: occ) m) with (run occ (add_topic (fst o) m (snd o))).
    rewrite IH, total_count_add_topic. unfold len. cbn [List.length]. lia.
Qed.

(** X2: the counts of the mapping add up to the number of label
    occurrences of the whole table: no occurrence is lost or counted
    twice. *)
Theorem counts_add_up (rows : list row) :
  total_count (aggregate rows) = len (all_labels rows).
Proof.
  rewrite aggregate_run, total_count_run. simpl.
  unfold len. now rewrite <- occurrences_labels, length_map.
Qed.

Lemma count_of_aggregate (rows : list row) (k : string) :
  count_of k (aggregate rows) = len (filter (has_key k) (all_labels rows)).
Proof.
  unfold count_of. pose proof (run_entry (occurrences rows) k) as He.
  rewrite <- aggregate_run in He. rewrite <- matching_len.
  destruct (dict_get k (aggregate rows)) as [st|]; simpl in He.
  - now destruct He as (Hc & _).
  - now rewrite He.
Qed.

(** X3: aggregating two tables one after the other adds the counts, key
    by key, of aggregating each on its own. *)
Theorem counts_of_concatenation (before after : list row) (k : string) :
  count_of k (aggregate (before ++ after))
  = count_of k (aggregate before) + count_of k (aggregate after).
Proof.
  rewrite !count_of_aggregate. unfold all_labels, len.
  rewrite flat_map_app, filter_app, length_app. lia.
Qed.

Lemma lower_char_idem (c : ascii) : lower_char (lower_char c) = lower_char c.
Proof.
  destruct c as [[] [] [] [] [] [] [] []]; vm_compute; reflexivity.
Qed.

Lemma lower_idem (s : string) : lower (lower s) = lower s.
Proof.
  induction s as [|c s IH]; simpl; [reflexivity|].
  now rewrite lower_char_idem, IH.
Qed.

Lemma entry_key (rows : list row) (k : string) (st : TopicStat) :
  In (k, st) (aggregate rows) -> lower (topic st) = k.
Proof.
  intros Hin. apply entry_label in Hin. apply find_some in Hin as [_ Hk].
  now apply String.eqb_eq in Hk.
Qed.

(** X4: every key of the mapping is in lower case already, so looking a
    key up again under its lower-case form finds the same entry. *)
Theorem keys_are_lower_case (rows : list row) (k : string) :
  In k (dict_keys (aggregate rows)) ->
  lower k = k /\ dict_get (lower k) (aggregate rows) = dict_get k (aggregate rows).
Proof.
  intros Hin. assert (E : lower k = k).
  { apply in_map_iff in Hin as ([k' st] & Hk & Hin). simpl in Hk. subst k'.
    apply entry_key in Hin. rewrite <- Hin. apply lower_idem. }
  now rewrite E.
Qed.

Lemma keys_are_lower_case_witness :
  lower "networking" = "networking"
  /\ dict_get (lower "networking") (aggregate spec_rows)
     = dict_get "networking" (aggregate spec_rows).
Proof.
  apply (keys_are_lower_case spec_rows "networking").
  vm_compute. right. right. left. reflexivity.
Defined.

Lemma values_keys (rows : list row) :
  map (fun st => lower (topic st)) (dict_values (aggregate rows))
  = dict_keys (aggregate rows).
Proof.
  unfold dict_values, dict_keys. rewrite map_map. apply map_ext_in.
  intros [k st] Hin. simpl. now apply (entry_key rows).
Qed.

Lemma NoDup_prefix {A : Type} (l1 l2 : list A) :
  prefix_of l1 l2 -> NoDup l2 -> NoDup l1.
Proof. intros [rest ->] H. now apply NoDup_app_remove_r in H. Qed.

(** X5: whatever top_n, no label appears twice in the ranking, not even
    under different spellings. *)
Theorem ranked_labels_distinct (rows : list row) (top_n : Z) :
  NoDup (map (fun e => lower (name e))
             (generate_wordcloud_data (aggregate rows) top_n)).
Proof.
  eapply NoDup_prefix.
  - apply prefix_of_map, generate_prefix.
  - rewrite map_map.
    change (fun x => lower (name (to_entry x)))
      with (fun st => lower (topic st)).
    eapply Permutation_NoDup.
    + apply Permutation_map. symmetry. apply sort_desc_perm.
    + rewrite (values_keys rows). apply aggregate_keys_NoDup.
Qed.

(** ** Growth of the mapping *)

Lemma prefix_of_refl {A : Type} (l : list A) : prefix_of l l.
Proof. exists []. now rewrite app_nil_r. Qed.

Lemma prefix_of_trans {A : Type} (l1 l2 l3 : list A) :
  prefix_of l1 l2 -> prefix_of l2 l3 -> prefix_of l1 l3.
Proof. intros [r1 ->] [r2 ->]. exists (r1 ++ r2). now rewrite app_assoc. Qed.

Lemma bump_repos_prefix (repo : cell) (st : TopicStat) :
  prefix_of (repos st) (repos (bump repo st)).
Proof.
  unfold bump. simpl. destruct (truthy repo && negb (py_in repo (repos st))).
  - now exists [repo].
  - apply prefix_of_refl.
Qed.

Lemma run_grows (occ : list (cell * string)) (m : dict) (k : string)
      (st : TopicStat) :
  dict_get k m = Some st ->
  exists st', dict_get k (run occ m) = Some st'
              /\ topic st' = topic st
              /\ count st <= count st'
              /\ prefix_of (repos st) (repos st').
Proof.
  revert m st. induction occ as [|o occ IH]; intros m st Hget.
  - exists st. repeat split; trivial; [lia|apply prefix_of_refl].
  - change (run (o :: occ) m) with (run occ (add_topic (fst o) m (snd o))).
    pose proof (dict_get_add_topic (fst o) m (snd o) k) as Hstep.
    rewrite Hget in Hstep. destruct (has_key k (snd o)).
    + destruct (IH _ _ Hstep) as (st' & H1 & H2 & H3 & H4).
      exists st'. split; [exact H1|]. split; [exact H2|]. split.
      * simpl in H3. lia.
      * eapply prefix_of_trans; [apply bump_repos_prefix|exact H4].
    + now apply IH.
Qed.

Lemma run_keys_prefix (occ : list (cell * string)) (m : dict) :
  prefix_of (dict_keys m) (dict_keys (run occ m)).
Proof.
  revert m. induction occ as [|o occ IH]; intros m; [apply prefix_of_refl|].
  change (run (o :: occ) m) with (run occ (add_topic (fst o) m (snd o))).
  eapply prefix_of_trans; [|apply IH].
  rewrite dict_keys_add_topic. destruct (dict_mem (lower (snd o)) m).
  - apply prefix_of_refl.
  - now exists [lower (snd o)].
Qed.

Lemma aggregate_app_run (before after : list row) :
  aggregate (before ++ after) = run (occurrences after) (aggregate before).
Proof. now rewrite aggregate_app, fold_process_row_run. Qed.

(** X6: reading further records never disturbs what is there: an entry
    keeps its display label, its count does not decrease, its repos list
    is only extended at the end, and the keys already present keep their
    places at the front of the mapping. *)
Theorem more_rows_only_extend (before after : list row) (k : string)
        (st : TopicStat) :
  dict_get k (aggregate before) = Some st ->
  (exists st', dict_get k (aggregate (before ++ after)) = Some st'
               /\ topic st' = topic st
               /\ count st <= count st'
               /\ prefix_of (repos st) (repos st'))
  /\ prefix_of (dict_keys (aggregate before))
               (dict_keys (aggregate (before ++ after))).
Proof.
  intros Hget. rewrite aggregate_app_run. split.
  - now apply run_grows.
  - apply run_keys_prefix.
Qed.

Lemma more_rows_only_extend_witness :
  let st := {| topic := "Rust"; count := 1; repos := [Str "repoA"] |} in
  let before := firstn 1 spec_rows in
  let after := skipn 1 spec_rows in
  (exists st', dict_get "rust" (aggregate (before ++ after)) = Some st'
               /\ topic st' = topic st
               /\ count st <= count st'
               /\ prefix_of (repos st) (repos st'))
  /\ prefix_of (dict_keys (aggregate before))
               (dict_keys (aggregate (before ++ after))).
Proof.
  apply (more_rows_only_extend (firstn 1 spec_rows) (skipn 1 spec_rows) "rust").
  vm_compute. reflexivity.
Defined.

(** ** Order of the repos lists *)

Lemma py_in_filter_other (c a : cell) (l : list cell) :
  is_or_eq c a = false ->
  py_in c (filter (fun c' => negb (is_or_eq c' a)) l) = py_in c l.
Proof.
  intros Hca. induction l as [|x l IH]; [reflexivity|].
  cbn [filter]. destruct (is_or_eq x a) eqn:Hxa; cbn [negb].
  - rewrite IH. unfold py_in at 2. cbn [existsb]. fold (py_in c l).
    destruct (is_or_eq c x) eqn:Hcx; [|reflexivity].
    rewrite (is_or_eq_trans c x a Hcx Hxa) in Hca. discriminate.
  - unfold py_in. cbn [existsb]. fold (py_in c l).
    fold (py_in c (filter (fun c' => negb (is_or_eq c' a)) l)).
    now rewrite IH.
Qed.

Lemma py_in_first_cells (c : cell) (l : list cell) :
  py_in c (first_cells l) = py_in c l.
Proof.
  induction l as [|a l IH]; [reflexivity|].
  cbn [first_cells]. unfold py_in. cbn [existsb].
  fold (py_in c l).
  fold (py_in c (filter (fun c' => negb (is_or_eq c' a)) (first_cells l))).
  destruct (is_or_eq c a) eqn:E; [reflexivity|].
  cbn [orb]. now rewrite py_in_filter_other, IH.
Qed.

Lemma first_cells_snoc (l : list cell) (c : cell) :
  first_cells (l ++ [c])
  = if py_in c l then first_cells l else first_cells l ++ [c].
Proof.
  induction l as [|a l IH]; [reflexivity|].
  cbn [app first_cells]. rewrite IH. unfold py_in. cbn [existsb].
  fold (py_in c l). destruct (is_or_eq c a) eqn:E; cbn [orb].
  - destruct (py_in c l); [reflexivity|].
    rewrite filter_app. cbn [filter]. rewrite E. cbn [negb].
    now rewrite app_nil_r.
  - destruct (py_in c l); [reflexivity|].
    rewrite filter_app. cbn [filter]. rewrite E. reflexivity.
Qed.

Lemma run_repos (occ : list (cell * string)) (k : string) :
  match dict_get k (run occ []) with
  | Some st => repos st = first_cells (filter truthy (map fst (matching k occ)))
  | None => True
  end.
Proof.
  induction occ as [|o occ IH] using rev_ind; [exact I|].
  rewrite run_snoc, dict_get_add_topic, matching_snoc.
  pose proof (run_entry occ k) as He.
  destruct (has_key k (snd o)) eqn:Hk.
  - rewrite map_app, filter_app. cbn [map filter].
    destruct (dict_get k (run occ [])) as [st|]; simpl in He.
    + unfold bump. cbn [repos]. rewrite IH.
      destruct (truthy (fst o)); cbn [andb].
      * rewrite first_cells_snoc, py_in_first_cells.
        now destruct (py_in (fst o) (filter truthy (map fst (matching k occ)))).
      * now rewrite app_nil_r.
    + rewrite He. unfold bump, fresh. cbn [repos map filter app py_in existsb].
      now destruct (truthy (fst o)).
  - rewrite app_nil_r. exact IH.
Qed.

(** X7: the repos list of an entry holds the repository cells that Python
    takes for true, among those of the label's occurrences, in scan order
    and each at its first occurrence only. *)
Theorem repos_in_scan_order (rows : list row) (k : string) (st : TopicStat) :
  In (k, st) (aggregate rows) ->
  repos st
  = first_cells (filter truthy (map fst (matching k (occurrences rows)))).
Proof.
  intros Hin. apply aggregate_get in Hin.
  pose proof (run_repos (occurrences rows) k) as H.
  rewrite <- aggregate_run, Hin in H. exact H.
Qed.

Lemma repos_in_scan_order_witness :
  let st := {| topic := "Rust"; count := 2;
               repos := [Str "repoA"; Str "repoB"] |} in
  repos st
  = first_cells (filter truthy (map fst (matching "rust" (occurrences spec_rows)))).
Proof.
  apply (repos_in_scan_order spec_rows "rust"). vm_compute. left. reflexivity.
Defined.

(** ** Parsing the topics cell *)

Lemma split_nonempty (sep : ascii) (s : string) : split sep s <> [].
Proof.
  destruct s as [|c s]; simpl; [discriminate|].
  destruct (Ascii.eqb c sep); [discriminate|].
  destruct (split sep s); discriminate.
Qed.

Lemma split_app (sep : ascii) (s1 s2 : string) :
  split sep (s1 ++ String sep s2)%string = split sep s1 ++ split sep s2.
Proof.
  induction s1 as [|c s1 IH]; simpl.
  - now rewrite Ascii.eqb_refl.
  - rewrite IH. destruct (Ascii.eqb c sep); [reflexivity|].
    pose proof (split_nonempty sep s1) as Hne.
    destruct (split sep s1); [contradiction|reflexivity].
Qed.

Lemma parse_topics_app (s1 s2 : string) :
  parse_topics (s1 ++ "," ++ s2)%string = parse_topics s1 ++ parse_topics s2.
Proof.
  unfold parse_topics. cbn [append]. rewrite split_app, filter_app, map_app.
  reflexivity.
Qed.

Lemma process_row_str (m : dict) (repo : cell) (s : string) :
  process_row m {| repo_name := repo; topics := Str s |}
  = fold_left (add_topic repo) (parse_topics s) m.
Proof.
  unfold process_row. cbn [topics repo_name isna eq_empty_str orb py_str].
  destruct s; reflexivity.
Qed.

(** X8: a comma between two label lists joins them: the record whose
    topics are [s1], a comma, [s2] contributes the labels of [s1] followed
    by those of [s2], and acts on the mapping like two records of the same
    repository, one with topics [s1] and one with topics [s2]. *)
Theorem comma_joins_label_lists (m : dict) (repo : cell) (s1 s2 : string) :
  parse_topics (s1 ++ "," ++ s2)%string = parse_topics s1 ++ parse_topics s2
  /\ process_row m {| repo_name := repo; topics := Str (s1 ++ "," ++ s2) |}
     = process_row (process_row m {| repo_name := repo; topics := Str s1 |})
                   {| repo_name := repo; topics := Str s2 |}.
Proof.
  split; [apply parse_topics_app|].
  rewrite !process_row_str, parse_topics_app. apply fold_left_app.
Qed.

Lemma split_no_sep (sep : ascii) (s p : string) :
  In p (split sep s) -> has_char sep p = false.
Proof.
  revert p. induction s as [|c s IH]; intros p; simpl.
  - intros [<-|[]]. reflexivity.
  - destruct (Ascii.eqb c sep) eqn:E.
    + intros [<-|H]; [reflexivity|now apply IH].
    + pose proof (split_nonempty sep s) as Hne.
      destruct (split sep s) as [|q rest]; [contradiction|].
      intros [<-|H].
      * simpl. rewrite E. apply IH. now left.
      * apply IH. now right.
Qed.

Lemma lstrip_has_char (c : ascii) (s : string) :
  has_char c s = false -> has_char c (lstrip s) = false.
Proof.
  induction s as [|a s IH]; simpl; [trivial|].
  intros H. apply orb_false_iff in H as [H1 H2].
  destruct (isspace a); [now apply IH|].
  simpl. now rewrite H1, H2.
Qed.

Lemma rstrip_has_char (c : ascii) (s : string) :
  has_char c s = false -> has_char c (rstrip s) = false.
Proof.
  induction s as [|a s IH]; simpl; [trivial|].
  intros H. apply orb_false_iff in H as [H1 H2].
  destruct (isspace a && is_empty (rstrip s)); [reflexivity|].
  simpl. now rewrite H1, IH.
Qed.

(** X9: no label of the table contains a comma, whatever the cells hold. *)
Theorem labels_have_no_comma (rows : list row) (t : string) :
  In t (all_labels rows) -> has_char "," t = false.
Proof.
  intros Hin. apply all_labels_In in Hin as (r & _ & Hr).
  unfold labels_of_row in Hr.
  destruct (isna (topics r) || eq_empty_str (topics r)); [contradiction|].
  apply parse_topics_In in Hr as (piece & Hp & -> & _).
  apply rstrip_has_char, lstrip_has_char. now apply (split_no_sep _ _ _ Hp).
Qed.

Lemma labels_have_no_comma_witness : has_char "," "networking" = false.
Proof.
  apply (labels_have_no_comma spec_rows "networking").
  vm_compute. right. right. right. left. reflexivity.
Defined.

(** ** More on the ranking *)

Lemma sorted_app_inv {A : Type} (R : A -> A -> Prop) (l1 l2 : list A) :
  StronglySorted R (l1 ++ l2) ->
  forall x y, In x l1 -> In y l2 -> R x y.
Proof.
  induction l1 as [|a l1 IH]; simpl; intros Hs x y Hx Hy; [contradiction|].
  apply StronglySorted_inv in Hs as [Hs Hall]. destruct Hx as [<-|Hx].
  - rewrite Forall_forall in Hall. apply Hall, in_or_app. now right.
  - now apply IH.
Qed.

(** X10: the ranking keeps the largest counts: the entries left out,
    together with those kept, are the entries of the mapping, and none
    left out has a larger count than one kept. *)
Theorem top_entries_dominate (m : dict) (top_n : Z) :
  exists rest,
    Permutation (generate_wordcloud_data m top_n ++ rest)
                (map to_entry (dict_values m))
    /\ forall e r, In e (generate_wordcloud_data m top_n) -> In r rest ->
                   entry_count r <= entry_count e.
Proof.
  unfold generate_wordcloud_data.
  destruct (slice_to_firstn top_n (sort_desc count (dict_values m))) as [j ->].
  set (sorted := sort_desc count (dict_values m)).
  exists (map to_entry (skipn j sorted)). split.
  - rewrite <- map_app, firstn_skipn. apply Permutation_map, sort_desc_perm.
  - intros e r He Hr.
    assert (Hs : StronglySorted (desc entry_count)
                   (map to_entry (firstn j sorted) ++ map to_entry (skipn j sorted))).
    { rewrite <- map_app, firstn_skipn. apply map_entry_sorted, sort_desc_sorted. }
    exact (sorted_app_inv _ _ _ Hs e r He Hr).
Qed.

Lemma slice_to_all {A : Type} (n : Z) (l : list A) :
  len l <= n -> slice_to n l = l.
Proof.
  unfold slice_to, len. intros H.
  destruct (Z.leb_spec 0 n); [|lia]. apply firstn_all2. lia.
Qed.

(** X11: when top_n is at least the number of labels, every label is in
    the ranking: the output is the whole mapping, reordered. *)
Theorem large_top_n_keeps_all (m : dict) (top_n : Z) :
  len m <= top_n ->
  Permutation (generate_wordcloud_data m top_n) (map to_entry (dict_values m))
  /\ len (generate_wordcloud_data m top_n) = len m.
Proof.
  intros H. unfold generate_wordcloud_data.
  rewrite slice_to_all.
  - split; [apply Permutation_map, sort_desc_perm|].
    unfold len, dict_values. now rewrite !length_map, sort_desc_length, length_map.
  - unfold len, dict_values in *. now rewrite sort_desc_length, length_map.
Qed.

Lemma large_top_n_keeps_all_witness :
  Permutation (generate_wordcloud_data (aggregate spec_rows) 15)
              (map to_entry (dict_values (aggregate spec_rows)))
  /\ len (generate_wordcloud_data (aggregate spec_rows) 15)
     = len (aggregate spec_rows).
Proof. apply (large_top_n_keeps_all (aggregate spec_rows) 15). vm_compute. discriminate. Defined.

(** X12: a negative top_n counts from the end, as Python slices do: the
    ranking then leaves out its last -top_n entries, and is empty when
    there are no more labels than that. *)
Theorem negative_top_n_length (m : dict) (top_n : Z) :
  top_n < 0 ->
  len (generate_wordcloud_data m top_n) = Z.max 0 (len m + top_n)
  /\ (len m <= - top_n -> generate_wordcloud_data m top_n = []).
Proof.
  intros Hneg.
  assert (Hlen : len (generate_wordcloud_data m top_n) = Z.max 0 (len m + top_n)).
  { rewrite generate_length. destruct (Z.leb_spec 0 top_n); [lia|reflexivity]. }
  split; [exact Hlen|]. intros Hfew.
  destruct (generate_wordcloud_data m top_n) as [|e l]; [reflexivity|].
  unfold len in Hlen. simpl in Hlen. unfold len in Hfew. lia.
Qed.

Lemma negative_top_n_length_witness :
  len (generate_wordcloud_data (aggregate spec_rows) (-5))
  = Z.max 0 (len (aggregate spec_rows) + -5)
  /\ (len (aggregate spec_rows) <= - -5 ->
      generate_wordcloud_data (aggregate spec_rows) (-5) = []).
Proof. apply (negative_top_n_length (aggregate spec_rows) (-5)). lia. Defined.

(** * Further properties of the writers *)

(** ** The spreadsheet *)

Lemma join_cells_cases (l : list cell) :
  join_cells l = if forallb is_str l then Ok (map py_str l) else Raise TypeError.
Proof.
  induction l as [|c l IH]; simpl; [reflexivity|].
  destruct c as [a|s|z|z]; simpl; try reflexivity.
  rewrite IH. now destruct (forallb is_str l).
Qed.

Lemma join_repos_cases (rs : list cell) :
  join_repos (slice_to 10 rs)
  = if joinable rs then Ok (join ", " (map py_str (slice_to 10 rs)))
    else Raise TypeError.
Proof.
  unfold joinable, join_repos. rewrite join_cells_cases.
  now destruct (forallb is_str (slice_to 10 rs)).
Qed.

(** A sheet is built exactly when the first ten repositories of every
    line are strings, and then its lines are those of [sheet_of]. *)
Lemma sheet_lines_cases (l : list (string * Z * list cell)) (start : Z) :
  sheet_lines (enumerate start l)
  = if forallb (fun x => joinable (snd x)) l then Ok (sheet_of start l)
    else Raise TypeError.
Proof.
  revert start. induction l as [|[[label n] rs] l IH]; intros start; simpl;
    [reflexivity|].
  rewrite join_repos_cases. destruct (joinable rs); simpl; [|reflexivity].
  rewrite IH. now destruct (forallb (fun x => joinable (snd x)) l).
Qed.

Lemma sheet_lines_inv (l : list (string * Z * list cell)) (start : Z)
      (lines : list sheet_line) :
  sheet_lines (enumerate start l) = Ok lines ->
  forallb (fun x => joinable (snd x)) l = true /\ lines = sheet_of start l.
Proof.
  rewrite sheet_lines_cases.
  destruct (forallb (fun x => joinable (snd x)) l); [|discriminate].
  intros [= <-]. split; reflexivity.
Qed.

Lemma sheet_of_columns (l : list (string * Z * list cell)) (start : Z) :
  map line_rank (sheet_of start l)
  = map (fun i => start + Z.of_nat i) (seq 1 (List.length l))
  /\ map line_label (sheet_of start l) = map (fun x => fst (fst x)) l
  /\ map line_count (sheet_of start l) = map (fun x => snd (fst x)) l
  /\ map line_nrepos (sheet_of start l) = map (fun x => len (snd x)) l
  /\ map line_repos (sheet_of start l)
     = map (fun x => join ", " (map py_str (slice_to 10 (snd x)))) l.
Proof.
  revert start. induction l as [|[[label n] rs] l IH]; intros start.
  - repeat split.
  - destruct (IH (start + 1)) as (H1 & H2 & H3 & H4 & H5).
    unfold sheet_of in *. cbn [enumerate map List.length seq fst snd
      line_rank line_label line_count line_nrepos line_repos].
    rewrite H1, H2, H3, H4, H5. split; [|repeat split].
    apply (f_equal2 cons); [lia|].
    rewrite <- (seq_shift (List.length l) 1), map_map.
    apply map_ext. intros i. lia.
Qed.

Lemma sheet_lines_columns (l : list (string * Z * list cell)) (start : Z)
      (lines : list sheet_line) :
  sheet_lines (enumerate start l) = Ok lines ->
  map line_rank lines = map (fun i => start + Z.of_nat i) (seq 1 (List.length l))
  /\ map line_label lines = map (fun x => fst (fst x)) l
  /\ map line_count lines = map (fun x => snd (fst x)) l
  /\ map line_nrepos lines = map (fun x => len (snd x)) l
  /\ map line_repos lines
     = map (fun x => join ", " (map py_str (slice_to 10 (snd x)))) l.
Proof.
  intros H. apply sheet_lines_inv in H as [_ ->]. apply sheet_of_columns.
Qed.

(** X13: in a sheet the rank column counts 1, 2, 3, ... down the lines,
    labels and counts are those of the statistics in the same order, the
    repository count is the length of the whole repos list, and the list
    column is the text of the first ten repositories, at most ten and all
    of them strings, joined by a comma and a space. *)
Theorem sheet_columns (stats : list TopicStat) (lines : list sheet_line) :
  sheet_lines (enumerate 0 (map (fun stat => (topic stat, count stat, repos stat))
                                stats)) = Ok lines ->
  map line_rank lines = map Z.of_nat (seq 1 (List.length stats))
  /\ map line_label lines = map topic stats
  /\ map line_count lines = map count stats
  /\ map line_nrepos lines = map (fun st => len (repos st)) stats
  /\ map line_repos lines
     = map (fun st => join ", " (map py_str (slice_to 10 (repos st)))) stats
  /\ Forall (fun st =>
               Forall (fun c => is_str c = true) (slice_to 10 (repos st))
               /\ len (slice_to 10 (repos st)) = Z.min 10 (len (repos st)))
            stats.
Proof.
  intros H. pose proof (sheet_lines_inv _ _ _ H) as [Hj _].
  apply sheet_lines_columns in H as (H1 & H2 & H3 & H4 & H5).
  rewrite length_map in H1. rewrite map_map in H2, H3, H4, H5.
  repeat (split; [assumption|]).
  rewrite forallb_forall in Hj. apply Forall_forall. intros st Hst. split.
  - apply Forall_forall. intros c Hc.
    assert (Hin : In (topic st, count st, repos st)
                     (map (fun stat => (topic stat, count stat, repos stat)) stats))
      by (apply in_map_iff; eauto).
    apply Hj in Hin. cbn [snd] in Hin. unfold joinable in Hin.
    rewrite forallb_forall in Hin. now apply Hin.
  - now rewrite slice_to_length.
Qed.

Lemma sheet_columns_witness :
  let stats := sort_desc count (dict_values (aggregate spec_rows)) in
  let lines := [ (1, "Rust", 2, 2, "repoA, repoB");
                 (2, "CLI", 1, 1, "repoA");
                 (3, "networking", 1, 1, "repoB") ] in
  map line_rank lines = map Z.of_nat (seq 1 (List.length stats))
  /\ map line_label lines = map topic stats
  /\ map line_count lines = map count stats
  /\ map line_nrepos lines = map (fun st => len (repos st)) stats
  /\ map line_repos lines
     = map (fun st => join ", " (map py_str (slice_to 10 (repos st)))) stats
  /\ Forall (fun st =>
               Forall (fun c => is_str c = true) (slice_to 10 (repos st))
               /\ len (slice_to 10 (repos st)) = Z.min 10 (len (repos st)))
            stats.
Proof.
  apply (sheet_columns (sort_desc count (dict_values (aggregate spec_rows)))).
  vm_compute. reflexivity.
Defined.

Lemma forallb_mapped {A B : Type} (f : A -> B) (p : B -> bool) (l : list A) :
  forallb p (map f l) = forallb (fun x => p (f x)) l.
Proof. induction l as [|a l IH]; simpl; [reflexivity|now rewrite IH]. Qed.

Lemma forallb_perm {A : Type} (p : A -> bool) (l1 l2 : list A) :
  Permutation l1 l2 -> forallb p l1 = forallb p l2.
Proof.
  intros H. apply eq_true_iff_eq. rewrite !forallb_forall.
  split; intros Hall x Hx; apply Hall.
  - now apply (Permutation_in x (Permutation_sym H)).
  - now apply (Permutation_in x H).
Qed.

Lemma sheet_of_length (l : list (string * Z * list cell)) (start : Z) :
  len (sheet_of start l) = len l.
Proof.
  destruct (sheet_of_columns l start) as (_ & H & _).
  apply (f_equal (@List.length string)) in H. rewrite !length_map in H.
  unfold len. now rewrite H.
Qed.

Lemma all_sheet_length (m : dict) : len (all_sheet m) = len m.
Proof.
  unfold all_sheet. rewrite sheet_of_length. unfold len, dict_values.
  now rewrite !length_map, sort_desc_length, length_map.
Qed.

Lemma top_sheet_length (data : list RankedEntry) : len (top_sheet data) = len data.
Proof.
  unfold top_sheet. rewrite sheet_of_length. unfold len. now rewrite length_map.
Qed.

(** The two frames of [save_excel]. *)
Lemma top_frame (data : list RankedEntry) :
  sheet_lines (enumerate 0 (map (fun item => (name item, entry_count item,
                                              entry_repos item)) data))
  = if forallb (fun item => joinable (entry_repos item)) data
    then Ok (top_sheet data) else Raise TypeError.
Proof. rewrite sheet_lines_cases, forallb_mapped. reflexivity. Qed.

Lemma all_frame (m : dict) :
  sheet_lines (enumerate 0 (map (fun stat => (topic stat, count stat, repos stat))
                                (sort_desc count (dict_values m))))
  = if forallb (fun stat => joinable (repos stat)) (dict_values m)
    then Ok (all_sheet m) else Raise TypeError.
Proof.
  rewrite sheet_lines_cases, forallb_mapped. cbn [snd].
  rewrite (forallb_perm _ _ _ (sort_desc_perm count (dict_values m))).
  reflexivity.
Qed.

Lemma save_excel_run (data : list RankedEntry) (m : dict) (w : world) :
  save_excel data m w
  = if forallb (fun item => joinable (entry_repos item)) data
       && forallb (fun stat => joinable (repos stat)) (dict_values m)
    then match to_excel (top_sheet data), to_excel (all_sheet m) with
         | Ok _, Ok _ =>
             (Ok tt,
              with_message MsgSavedExcel
                (with_file OUTPUT_EXCEL
                   (Workbook (clock w) (top_sheet data) (all_sheet m)) w))
         | Raise e, _ | Ok _, Raise e =>
             (Raise e, with_file OUTPUT_EXCEL Unfinished w)
         end
    else (Raise TypeError, w).
Proof.
  unfold save_excel. unfold bind at 1. unfold lift at 1. rewrite top_frame.
  destruct (forallb (fun item => joinable (entry_repos item)) data);
    cbn [andb]; [|reflexivity].
  unfold bind at 1. unfold lift at 1. rewrite all_frame.
  destruct (forallb (fun stat => joinable (repos stat)) (dict_values m));
    [|reflexivity].
  destruct (to_excel (top_sheet data)) as [[]|e];
    destruct (to_excel (all_sheet m)) as [[]|e']; reflexivity.
Qed.


(** ** The three writers, run from a given world *)

Lemma save_json_run (data : list RankedEntry) (m : dict) (w : world) :
  save_json data m w
  = if forallb (fun item => forallb json_encodable (entry_repos item)) data
    then (Ok tt,
          with_message MsgSavedJson
            (with_file OUTPUT_JSON
               (JsonDoc {| generatedAt := clock w; data := data;
                           totalTopics := len m; top15Topics := len data |}) w))
    else (Raise TypeError, with_file OUTPUT_JSON Unfinished w).
Proof.
  unfold save_json. unfold bind at 1. unfold timestamp_now at 1.
  destruct (forallb (fun item => forallb json_encodable (entry_repos item)) data);
    reflexivity.
Qed.

Lemma save_csv_run (data : list RankedEntry) (w : world) :
  save_csv data w
  = (Ok tt,
     with_message MsgSavedCsv
       (with_file OUTPUT_CSV
          (CsvDoc (map (fun item => (name item, value item, entry_count item,
                                     len (entry_repos item))) data)) w)).
Proof. reflexivity. Qed.

(** ** The whole run *)

(** On a table the script gets as far as the writers. *)
Lemma main_table (w : world) (rows : list row) :
  files w INPUT_CSV = Some (Table rows) ->
  main w
  = (save_json (generate_wordcloud_data (aggregate rows) 15) (aggregate rows) ;;
     save_csv (generate_wordcloud_data (aggregate rows) 15) ;;
     save_excel (generate_wordcloud_data (aggregate rows) 15) (aggregate rows) ;;
     print MsgDone) (before_writers w rows).
Proof.
  intros Hf. unfold main. unfold bind at 1. cbn [print].
  unfold bind at 1. unfold path_exists at 1. cbn [files]. rewrite Hf. cbn [negb].
  unfold bind at 1. erewrite count_topics_run by (cbn [files]; exact Hf).
  unfold bind at 1. cbn [print files clock console].
  unfold bind at 1. cbn [print files clock console].
  unfold bind at 1.
  erewrite for_each_print
    with (f := fun p => MsgTopItem (fst p) (name (snd p)) (entry_count (snd p))
                                   (len (entry_repos (snd p))))
    by (intros [i item]; reflexivity).
  cbn [files clock console]. reflexivity.
Qed.

Lemma main_unreadable (w : world) (c : content) :
  files w INPUT_CSV = Some c ->
  (forall rows, c <> Table rows) ->
  main w = (Raise ParserError,
            {| files := files w; clock := clock w;
               console := (console w ++ [MsgStart]) ++ [MsgReading] |}).
Proof.
  intros Hf Hc. unfold main. unfold bind at 1. cbn [print].
  unfold bind at 1. unfold path_exists at 1. cbn [files]. rewrite Hf. cbn [negb].
  unfold bind at 1. unfold count_topics_from_csv.
  unfold bind at 1. cbn [print]. unfold bind at 1. unfold read_csv at 1.
  cbn [files]. rewrite Hf.
  destruct c as [rows| | | |]; [now destruct (Hc rows)|reflexivity..].
Qed.

(** ** The two sheets *)

Lemma sheet_lines_app (l1 l2 : list (string * Z * list cell)) (start : Z)
      (lines : list sheet_line) :
  sheet_lines (enumerate start (l1 ++ l2)) = Ok lines ->
  exists head, sheet_lines (enumerate start l1) = Ok head /\ prefix_of head lines.
Proof.
  revert start lines. induction l1 as [|[[label n] rs] l1 IH];
    intros start lines; simpl.
  - intros _. exists []. split; [reflexivity|now exists lines].
  - destruct (join_repos (slice_to 10 rs)) as [joined|e]; [|discriminate].
    destruct (sheet_lines (enumerate (start + 1) (l1 ++ l2))) as [rest|e] eqn:E;
      [|discriminate].
    intros [= <-]. destruct (IH _ _ E) as (head & -> & [tail ->]).
    eexists. split; [reflexivity|]. now exists tail.
Qed.

Lemma ranked_as_stats (m : dict) (top_n : Z) :
  map (fun item => (name item, entry_count item, entry_repos item))
      (generate_wordcloud_data m top_n)
  = map (fun stat => (topic stat, count stat, repos stat))
        (slice_to top_n (sort_desc count (dict_values m))).
Proof. unfold generate_wordcloud_data. now rewrite map_map. Qed.

(** X15: the first sheet of the workbook is the head of the second one:
    whenever both sheets can be built, the lines of the ranked entries are
    the first lines, ranks included, of the sheet of all statistics. *)
Theorem top_sheet_heads_detail_sheet (m : dict) (top_n : Z)
        (df1 df2 : list sheet_line) :
  sheet_lines (enumerate 0 (map (fun item => (name item, entry_count item,
                                              entry_repos item))
                                (generate_wordcloud_data m top_n))) = Ok df1 ->
  sheet_lines (enumerate 0 (map (fun stat => (topic stat, count stat, repos stat))
                                (sort_desc count (dict_values m)))) = Ok df2 ->
  prefix_of df1 df2.
Proof.
  rewrite ranked_as_stats. intros Htop Hall.
  destruct (slice_to_prefix top_n (sort_desc count (dict_values m))) as [rest E].
  rewrite E, map_app in Hall.
  apply sheet_lines_app in Hall as (head & Hhead & Hpre).
  rewrite Htop in Hhead. now injection Hhead as <-.
Qed.

Lemma top_sheet_heads_detail_sheet_witness :
  prefix_of [ (1, "Rust", 2, 2, "repoA, repoB"); (2, "CLI", 1, 1, "repoA") ]
            [ (1, "Rust", 2, 2, "repoA, repoB"); (2, "CLI", 1, 1, "repoA");
              (3, "networking", 1, 1, "repoB") ].
Proof.
  apply (top_sheet_heads_detail_sheet (aggregate spec_rows) 2);
    vm_compute; reflexivity.
Defined.

Lemma sheet_of_app (l1 l2 : list (string * Z * list cell)) (start : Z) :
  prefix_of (sheet_of start l1) (sheet_of start (l1 ++ l2)).
Proof.
  revert start. induction l1 as [|[[label n] rs] l1 IH]; intros start.
  - now exists (sheet_of start l2).
  - destruct (IH (start + 1)) as [rest E]. exists rest.
    unfold sheet_of in *. cbn [app enumerate map]. now rewrite E.
Qed.

Lemma sheet_prefix (m : dict) (top_n : Z) :
  prefix_of (top_sheet (generate_wordcloud_data m top_n)) (all_sheet m).
Proof.
  unfold top_sheet, all_sheet. rewrite ranked_as_stats.
  destruct (slice_to_prefix top_n (sort_desc count (dict_values m))) as [rest E].
  rewrite E at 2. rewrite map_app. apply sheet_of_app.
Qed.

Lemma sheet_of_In (l : list (string * Z * list cell)) (start : Z) (x : sheet_line) :
  In x (sheet_of start l) ->
  exists i label n rs,
    In (label, n, rs) l
    /\ x = (i, label, n, len rs, join ", " (map py_str (slice_to 10 rs))).
Proof.
  revert start. induction l as [|[[label n] rs] l IH]; intros start; [intros []|].
  unfold sheet_of in *. cbn [enumerate map]. intros [<-|Hin].
  - exists (start + 1), label, n, rs. split; [now left|reflexivity].
  - destruct (IH _ Hin) as (i & label' & n' & rs' & Hl & ->).
    exists i, label', n', rs'. split; [now right|reflexivity].
Qed.

Lemma all_sheet_In (m : dict) (x : sheet_line) :
  In x (all_sheet m) ->
  exists i st,
    In st (dict_values m)
    /\ x = (i, topic st, count st, len (repos st),
            join ", " (map py_str (slice_to 10 (repos st)))).
Proof.
  intros Hin. apply sheet_of_In in Hin as (i & label & n & rs & Hl & ->).
  apply in_map_iff in Hl as (st & [= <- <- <-] & Hst).
  exists i, st. split; [|reflexivity].
  now apply (Permutation_in st (sort_desc_perm count (dict_values m))).
Qed.

(** ** Text that openpyxl accepts *)

Lemma legal_check (s : string) : legal_text s = true -> check_string s = false.
Proof.
  unfold check_string. generalize 32767%N.
  induction s as [|c s IH]; intros limit H; cbn [illegal_within]; [reflexivity|].
  cbn [legal_text] in H. apply andb_true_iff in H as [Hc Hs].
  destruct (limit =? 0)%N; [reflexivity|].
  apply negb_true_iff in Hc. rewrite Hc. cbn [orb]. now apply IH.
Qed.

Lemma legal_app (a b : string) :
  legal_text (a ++ b)%string = legal_text a && legal_text b.
Proof.
  induction a as [|c a IH]; cbn [String.append legal_text]; [reflexivity|].
  now rewrite IH, andb_assoc.
Qed.

Lemma legal_join (sep : string) (l : list string) :
  legal_text sep = true ->
  Forall (fun s => legal_text s = true) l ->
  legal_text (join sep l) = true.
Proof.
  intros Hsep. induction 1 as [|s l Hs Hl IH]; [reflexivity|].
  destruct l as [|s' l]; [exact Hs|].
  change (join sep (s :: s' :: l)) with (s ++ sep ++ join sep (s' :: l))%string.
  now rewrite !legal_app, Hs, Hsep, IH.
Qed.

Lemma legal_lstrip (s : string) : legal_text s = true -> legal_text (lstrip s) = true.
Proof.
  induction s as [|c s IH]; [reflexivity|]. intros H. cbn [lstrip].
  destruct (isspace c); [|exact H].
  cbn [legal_text] in H. apply andb_true_iff in H as [_ H]. now apply IH.
Qed.

Lemma legal_rstrip (s : string) : legal_text s = true -> legal_text (rstrip s) = true.
Proof.
  induction s as [|c s IH]; [reflexivity|]. intros H. cbn [rstrip].
  cbn [legal_text] in H. apply andb_true_iff in H as [Hc H].
  destruct (isspace c && is_empty (rstrip s)); [reflexivity|].
  cbn [legal_text]. now rewrite Hc, IH.
Qed.

Lemma legal_split (sep : ascii) (s : string) :
  legal_text s = true -> Forall (fun p => legal_text p = true) (split sep s).
Proof.
  induction s as [|c s IH]; intros H; cbn [split].
  - now repeat constructor.
  - cbn [legal_text] in H. apply andb_true_iff in H as [Hc H].
    specialize (IH H). destruct (Ascii.eqb c sep).
    + now constructor.
    + destruct (split sep s) as [|piece rest].
      * constructor; [|constructor]. cbn [legal_text]. now rewrite Hc.
      * inversion IH as [|? ? Hp Hr]; subst. constructor; [|exact Hr].
        cbn [legal_text]. now rewrite Hc, Hp.
Qed.

Lemma legal_labels (rows : list row) (t : string) :
  Forall (fun r => legal_text (py_str (topics r)) = true) rows ->
  In t (all_labels rows) -> legal_text t = true.
Proof.
  intros Hrows Hin. unfold all_labels in Hin.
  apply in_flat_map in Hin as (r & Hr & Ht).
  rewrite Forall_forall in Hrows. specialize (Hrows r Hr).
  unfold labels_of_row in Ht.
  destruct (isna (topics r) || eq_empty_str (topics r)); [destruct Ht|].
  apply parse_topics_In in Ht as (piece & Hp & -> & _).
  apply (legal_split ",") in Hrows. rewrite Forall_forall in Hrows.
  unfold strip. apply legal_rstrip, legal_lstrip. now apply Hrows.
Qed.

(** On a table of legal text no line of the detail sheet is refused. *)
Lemma legal_sheet (rows : list row) (x : sheet_line) :
  Forall (fun r => legal_text (py_str (topics r)) = true
                   /\ legal_text (py_str (repo_name r)) = true) rows ->
  In x (all_sheet (aggregate rows)) -> illegal_line x = false.
Proof.
  intros Hrows Hin. apply all_sheet_In in Hin as (i & st & Hst & ->).
  apply in_map_iff in Hst as ([k st'] & E & Hk). cbn [snd] in E. subst st'.
  cbn [illegal_line]. apply orb_false_iff. split; apply legal_check.
  - apply (legal_labels rows).
    + eapply Forall_impl; [|exact Hrows]. now intros r [H _].
    + apply entry_label in Hk. now apply find_some in Hk as [Hk _].
  - apply legal_join; [reflexivity|]. apply Forall_map, Forall_slice_to.
    apply Forall_forall. intros c Hc.
    destruct (repos_spec rows k st Hk) as (_ & Hsub & _).
    apply Hsub in Hc as (_ & r & Hr & <- & _).
    rewrite Forall_forall in Hrows. now apply Hrows.
Qed.

Lemma existsb_false {A : Type} (p : A -> bool) (l : list A) :
  (forall x, In x l -> p x = false) -> existsb p l = false.
Proof.
  intros H. induction l as [|a l IH]; [reflexivity|]. cbn [existsb].
  rewrite (H a) by now left. apply IH. intros x Hx. apply H. now right.
Qed.

Lemma ranked_to_excel (m : dict) :
  to_excel (top_sheet (generate_wordcloud_data m 15))
  = if existsb illegal_line (top_sheet (generate_wordcloud_data m 15))
    then Raise IllegalCharacterError else Ok tt.
Proof.
  assert (E : len (generate_wordcloud_data m 15) = Z.min 15 (len m))
    by (rewrite generate_length; reflexivity).
  unfold to_excel. rewrite top_sheet_length, E.
  destruct (Z.ltb_spec 1048576 (Z.min 15 (len m))); [lia|reflexivity].
Qed.

Lemma all_to_excel (m : dict) :
  len m <= 1048576 ->
  to_excel (all_sheet m)
  = if existsb illegal_line (all_sheet m)
    then Raise IllegalCharacterError else Ok tt.
Proof.
  intros Hm. unfold to_excel. rewrite all_sheet_length.
  destruct (Z.ltb_spec 1048576 (len m)); [lia|reflexivity].
Qed.

Lemma legal_all_sheet (rows : list row) :
  Forall (fun r => legal_text (py_str (topics r)) = true
                   /\ legal_text (py_str (repo_name r)) = true) rows ->
  existsb illegal_line (all_sheet (aggregate rows)) = false.
Proof.
  intros Hrows. apply existsb_false. intros x Hx.
  exact (legal_sheet rows x Hrows Hx).
Qed.

Lemma legal_top_sheet (rows : list row) (top_n : Z) :
  Forall (fun r => legal_text (py_str (topics r)) = true
                   /\ legal_text (py_str (repo_name r)) = true) rows ->
  existsb illegal_line (top_sheet (generate_wordcloud_data (aggregate rows) top_n))
  = false.
Proof.
  intros Hrows. apply existsb_false. intros x Hx.
  apply (legal_sheet rows x Hrows).
  destruct (sheet_prefix (aggregate rows) top_n) as [rest E].
  rewrite E. apply in_or_app. now left.
Qed.

(** ** Tables whose repository cells are text *)

Lemma textual_joinable (rows : list row) :
  Forall (fun r => truthy (repo_name r) = true -> is_str (repo_name r) = true) rows ->
  forallb (fun stat => forallb is_str (repos stat)) (dict_values (aggregate rows))
  = true.
Proof.
  intros Hrows. apply textual_repos in Hrows. apply forallb_forall.
  intros st Hst. apply forallb_forall. intros c Hc.
  rewrite Forall_forall in Hrows. specialize (Hrows st Hst).
  rewrite Forall_forall in Hrows. now apply Hrows.
Qed.

Lemma ranked_In (m : dict) (top_n : Z) (item : RankedEntry) :
  In item (generate_wordcloud_data m top_n) ->
  exists st, In st (dict_values m) /\ item = to_entry st.
Proof.
  unfold generate_wordcloud_data. intros Hin.
  apply in_map_iff in Hin as (st & <- & Hst). exists st. split; [|reflexivity].
  destruct (slice_to_prefix top_n (sort_desc count (dict_values m))) as [rest E].
  apply (Permutation_in st (sort_desc_perm count (dict_values m))).
  rewrite E. apply in_or_app. now left.
Qed.

Lemma is_str_slice (rs : list cell) : forallb is_str rs = true -> joinable rs = true.
Proof.
  unfold joinable. rewrite !forallb_forall. intros H c Hc. apply H.
  destruct (slice_to_prefix 10 rs) as [rest E]. rewrite E.
  apply in_or_app. now left.
Qed.

Lemma is_str_encodable (rs : list cell) :
  forallb is_str rs = true -> forallb json_encodable rs = true.
Proof.
  rewrite !forallb_forall. intros H c Hc. specialize (H c Hc). now destruct c.
Qed.

(** The run of the script on a table whose repository cells are text:
    the JSON and CSV artifacts are written, and the workbook is all that
    can still fail. *)
Lemma main_textual (w : world) (rows : list row) :
  files w INPUT_CSV = Some (Table rows) ->
  Forall (fun r => truthy (repo_name r) = true -> is_str (repo_name r) = true) rows ->
  main w
  = (save_excel (generate_wordcloud_data (aggregate rows) 15) (aggregate rows) ;;
     print MsgDone)
      (with_message MsgSavedCsv
         (with_file OUTPUT_CSV
            (CsvDoc (map (fun item => (name item, value item, entry_count item,
                                       len (entry_repos item)))
                         (generate_wordcloud_data (aggregate rows) 15)))
            (with_message MsgSavedJson
               (with_file OUTPUT_JSON
                  (JsonDoc
                     {| generatedAt := clock w;
                        data := generate_wordcloud_data (aggregate rows) 15;
                        totalTopics := len (aggregate rows);
                        top15Topics :=
                          len (generate_wordcloud_data (aggregate rows) 15) |})
                  (before_writers w rows)))))
    /\ forallb (fun item => joinable (entry_repos item))
               (generate_wordcloud_data (aggregate rows) 15)
       && forallb (fun stat => joinable (repos stat))
                  (dict_values (aggregate rows)) = true.
Proof.
  intros Hf Htext. pose proof (textual_joinable rows Htext) as Hstr.
  rewrite forallb_forall in Hstr. split.
  - rewrite (main_table w rows Hf). unfold bind at 1. rewrite save_json_run.
    replace (forallb (fun item => forallb json_encodable (entry_repos item))
                     (generate_wordcloud_data (aggregate rows) 15)) with true.
    2:{ symmetry. apply forallb_forall. intros item Hitem.
        apply ranked_In in Hitem as (st & Hst & ->).
        apply is_str_encodable. now apply Hstr. }
    unfold bind at 1. rewrite save_csv_run. reflexivity.
  - apply andb_true_iff. split; apply forallb_forall.
    + intros item Hitem. apply ranked_In in Hitem as (st & Hst & ->).
      apply is_str_slice. now apply Hstr.
    + intros st Hst. apply is_str_slice. now apply Hstr.
Qed.

(** The run on such a table when openpyxl accepts its text and the
    labels fit a sheet. *)
Lemma main_clean (w : world) (rows : list row) :
  files w INPUT_CSV = Some (Table rows) ->
  Forall (fun r => truthy (repo_name r) = true -> is_str (repo_name r) = true) rows ->
  Forall (fun r => legal_text (py_str (topics r)) = true
                   /\ legal_text (py_str (repo_name r)) = true) rows ->
  len (aggregate rows) <= 1048576 ->
  main w
  = (Ok tt,
     with_message MsgDone
       (with_message MsgSavedExcel
          (with_file OUTPUT_EXCEL
             (Workbook (clock w)
                       (top_sheet (generate_wordcloud_data (aggregate rows) 15))
                       (all_sheet (aggregate rows)))
             (with_message MsgSavedCsv
                (with_file OUTPUT_CSV
                   (CsvDoc (map (fun item => (name item, value item,
                                              entry_count item,
                                              len (entry_repos item)))
                                (generate_wordcloud_data (aggregate rows) 15)))
                   (with_message MsgSavedJson
                      (with_file OUTPUT_JSON
                         (JsonDoc
                            {| generatedAt := clock w;
                               data := generate_wordcloud_data (aggregate rows) 15;
                               totalTopics := len (aggregate rows);
                               top15Topics :=
                                 len (generate_wordcloud_data (aggregate rows) 15) |})
                         (before_writers w rows)))))))).
Proof.
  intros Hf Htext Hlegal Hsize.
  destruct (main_textual w rows Hf Htext) as [-> Hjoin].
  unfold bind at 1. rewrite save_excel_run, Hjoin.
  rewrite ranked_to_excel, (legal_top_sheet rows 15 Hlegal).
  rewrite (all_to_excel _ Hsize), (legal_all_sheet rows Hlegal). reflexivity.
Qed.

(** With an input table whose repository cells are text (or empty),
    whose text openpyxl accepts and whose labels fit a sheet, the script
    returns normally and all three artifacts exist afterwards. *)
Lemma main_writes_all (w : world) (rows : list row) :
  files w INPUT_CSV = Some (Table rows) ->
  Forall (fun r => truthy (repo_name r) = true -> is_str (repo_name r) = true) rows ->
  Forall (fun r => legal_text (py_str (topics r)) = true
                   /\ legal_text (py_str (repo_name r)) = true) rows ->
  len (aggregate rows) <= 1048576 ->
  returns main w (fun _ w' =>
    written w' OUTPUT_JSON = true
    /\ written w' OUTPUT_CSV = true
    /\ written w' OUTPUT_EXCEL = true).
Proof.
  intros Hf Htext Hlegal Hsize. unfold returns.
  rewrite (main_clean w rows Hf Htext Hlegal Hsize). repeat split.
Qed.

(** X16: started on a table whose repository cells are text (or empty),
    whose topics and repository names hold no character openpyxl refuses
    and whose labels, at most 2**20 of them, fit a sheet, the script
    returns normally, leaves the table in place and
    writes the three artifacts from the one mapping: the JSON document
    carries the clock's timestamp, the ranking, the number of labels and
    the size of the ranking, which is min(15, labels); the CSV artifact
    has one line per ranked entry; the workbook carries the clock's stamp
    and the two sheets, the second with one line per label and starting
    with the lines of the first. *)
Theorem main_artifacts (w : world) (rows : list row) :
  files w INPUT_CSV = Some (Table rows) ->
  Forall (fun r => truthy (repo_name r) = true -> is_str (repo_name r) = true) rows ->
  Forall (fun r => legal_text (py_str (topics r)) = true
                   /\ legal_text (py_str (repo_name r)) = true) rows ->
  len (aggregate rows) <= 1048576 ->
  exists w',
    main w = (Ok tt, w')
    /\ files w' INPUT_CSV = Some (Table rows)
    /\ files w' OUTPUT_JSON
       = Some (JsonDoc {| generatedAt := clock w;
                          data := generate_wordcloud_data (aggregate rows) 15;
                          totalTopics := len (aggregate rows);
                          top15Topics := Z.min 15 (len (aggregate rows)) |})
    /\ files w' OUTPUT_CSV
       = Some (CsvDoc (map (fun item => (name item, value item, entry_count item,
                                         len (entry_repos item)))
                           (generate_wordcloud_data (aggregate rows) 15)))
    /\ files w' OUTPUT_EXCEL
       = Some (Workbook (clock w)
                        (top_sheet (generate_wordcloud_data (aggregate rows) 15))
                        (all_sheet (aggregate rows)))
    /\ prefix_of (top_sheet (generate_wordcloud_data (aggregate rows) 15))
                 (all_sheet (aggregate rows))
    /\ len (all_sheet (aggregate rows)) = len (aggregate rows).
Proof.
  intros Hf Htext Hlegal Hsize. eexists.
  split; [exact (main_clean w rows Hf Htext Hlegal Hsize)|].
  cbn [files with_message with_file before_writers path_eqb].
  split; [exact Hf|]. split.
  - do 3 f_equal. rewrite (generate_length (aggregate rows) 15). reflexivity.
  - split; [reflexivity|]. split; [reflexivity|]. split.
    + apply sheet_prefix.
    + apply all_sheet_length.
Qed.

Lemma main_artifacts_witness :
  let w := world_with (Some spec_rows) "2024-01-01T00:00:00" in
  exists w',
    main w = (Ok tt, w')
    /\ files w' INPUT_CSV = Some (Table spec_rows)
    /\ files w' OUTPUT_JSON
       = Some (JsonDoc {| generatedAt := clock w;
                          data := generate_wordcloud_data (aggregate spec_rows) 15;
                          totalTopics := len (aggregate spec_rows);
                          top15Topics := Z.min 15 (len (aggregate spec_rows)) |})
    /\ files w' OUTPUT_CSV
       = Some (CsvDoc (map (fun item => (name item, value item, entry_count item,
                                         len (entry_repos item)))
                           (generate_wordcloud_data (aggregate spec_rows) 15)))
    /\ files w' OUTPUT_EXCEL
       = Some (Workbook (clock w)
                        (top_sheet (generate_wordcloud_data (aggregate spec_rows) 15))
                        (all_sheet (aggregate spec_rows)))
    /\ prefix_of (top_sheet (generate_wordcloud_data (aggregate spec_rows) 15))
                 (all_sheet (aggregate spec_rows))
    /\ len (all_sheet (aggregate spec_rows)) = len (aggregate spec_rows).
Proof.
  apply (main_artifacts (world_with (Some spec_rows) "2024-01-01T00:00:00") spec_rows).
  - reflexivity.
  - repeat constructor.
  - repeat constructor.
  - vm_compute. discriminate.
Defined.

(** ** Runs that write nothing, and the clock *)

(** X17: without an input table the script prints its start and
    missing-input messages, returns normally and leaves every file, the
    outputs of an earlier run included, exactly as it was. *)
Theorem missing_input_is_reported (w : world) :
  files w INPUT_CSV = None ->
  fst (main w) = Ok tt
  /\ console (snd (main w)) = console w ++ [MsgStart; MsgMissingInput]
  /\ (forall p, files (snd (main w)) p = files w p).
Proof.
  intros Hf. rewrite (main_missing_input w Hf). simpl.
  split; [reflexivity|]. split; [|reflexivity].
  now rewrite <- app_assoc.
Qed.

Lemma missing_input_is_reported_witness :
  let w := world_with None "2024-01-01T00:00:00" in
  fst (main w) = Ok tt
  /\ console (snd (main w)) = console w ++ [MsgStart; MsgMissingInput]
  /\ (forall p, files (snd (main w)) p = files w p).
Proof.
  apply (missing_input_is_reported (world_with None "2024-01-01T00:00:00")).
  reflexivity.
Defined.

Lemma same_but_timestamp_refl (a : option content) : same_but_timestamp a a.
Proof. destruct a as [[]|]; simpl; auto. Qed.

(** The three writers and the closing message, run at two times. *)
Lemma writers_clock (data : list RankedEntry) (m : dict) (w : world)
      (now : string) :
  let c := save_json data m ;; save_csv data ;; save_excel data m ;;
           print MsgDone in
  fst (c (at_time now w)) = fst (c w)
  /\ console (snd (c (at_time now w))) = console (snd (c w))
  /\ (forall p, p <> OUTPUT_JSON -> p <> OUTPUT_EXCEL ->
                files (snd (c (at_time now w))) p = files (snd (c w)) p)
  /\ same_but_timestamp (files (snd (c (at_time now w))) OUTPUT_JSON)
                        (files (snd (c w)) OUTPUT_JSON)
  /\ same_but_timestamp (files (snd (c (at_time now w))) OUTPUT_EXCEL)
                        (files (snd (c w)) OUTPUT_EXCEL).
Proof.
  cbv zeta. unfold bind. rewrite !save_json_run.
  destruct (forallb (fun item => forallb json_encodable (entry_repos item)) data).
  - cbv beta iota. rewrite !save_csv_run. cbv beta iota. rewrite !save_excel_run.
    destruct (forallb (fun item => joinable (entry_repos item)) data
              && forallb (fun stat => joinable (repos stat)) (dict_values m));
      [destruct (to_excel (top_sheet data)) as [[]|e];
       destruct (to_excel (all_sheet m)) as [[]|e']|];
      cbn; repeat split;
      try (intros p Hp Hq; destruct p; (reflexivity || congruence));
      apply same_but_timestamp_refl.
  - cbn. repeat split;
      try (intros p Hp Hq; destruct p; (reflexivity || congruence));
      apply same_but_timestamp_refl.
Qed.

(** X18: the clock shows in the timestamp of the JSON document and in the
    stamp of the workbook, and nowhere else: run at another time, the
    script ends the same way, prints the same messages and leaves the
    same files, the JSON document and the workbook differing at most in
    the time written into them. *)
Theorem clock_only_sets_timestamp (w : world) (now : string) :
  fst (main (at_time now w)) = fst (main w)
  /\ console (snd (main (at_time now w))) = console (snd (main w))
  /\ (forall p, p <> OUTPUT_JSON -> p <> OUTPUT_EXCEL ->
                files (snd (main (at_time now w))) p = files (snd (main w)) p)
  /\ same_but_timestamp (files (snd (main (at_time now w))) OUTPUT_JSON)
                        (files (snd (main w)) OUTPUT_JSON)
  /\ same_but_timestamp (files (snd (main (at_time now w))) OUTPUT_EXCEL)
                        (files (snd (main w)) OUTPUT_EXCEL).
Proof.
  destruct (files w INPUT_CSV) as [c|] eqn:Hf.
  - destruct c as [rows|doc|lines|stamp top all|].
    + rewrite (main_table w rows Hf), (main_table (at_time now w) rows Hf).
      change (before_writers (at_time now w) rows)
        with (at_time now (before_writers w rows)).
      apply writers_clock.
    + rewrite (main_unreadable w _ Hf), (main_unreadable (at_time now w) _ Hf)
        by discriminate.
      cbn. repeat split; apply same_but_timestamp_refl.
    + rewrite (main_unreadable w _ Hf), (main_unreadable (at_time now w) _ Hf)
        by discriminate.
      cbn. repeat split; apply same_but_timestamp_refl.
    + rewrite (main_unreadable w _ Hf), (main_unreadable (at_time now w) _ Hf)
        by discriminate.
      cbn. repeat split; apply same_but_timestamp_refl.
    + rewrite (main_unreadable w _ Hf), (main_unreadable (at_time now w) _ Hf)
        by discriminate.
      cbn. repeat split; apply same_but_timestamp_refl.
  - rewrite (main_missing_input w Hf), (main_missing_input (at_time now w) Hf).
    cbn. repeat split; apply same_but_timestamp_refl.
Qed.

(** ** Runs the writers cut short *)

(** X21: when a repository kept in the ranking is a numpy integer, as in
    a table of integers alone, the run stops with TypeError inside
    [save_json]: the ranking has been printed, the JSON file is left
    unfinished, and neither the CSV artifact nor the workbook is touched. *)
Theorem numpy_repository_stops_json (w : world) (rows : list row) :
  files w INPUT_CSV = Some (Table rows) ->
  forallb (fun item => forallb json_encodable (entry_repos item))
          (generate_wordcloud_data (aggregate rows) 15) = false ->
  main w = (Raise TypeError,
            with_file OUTPUT_JSON Unfinished (before_writers w rows)).
Proof.
  intros Hf Hj. rewrite (main_table w rows Hf). unfold bind at 1.
  now rewrite save_json_run, Hj.
Qed.

Lemma numpy_repository_stops_json_witness :
  let w := world_with (Some integer_rows) "2024-01-01T00:00:00" in
  main w = (Raise TypeError,
            with_file OUTPUT_JSON Unfinished (before_writers w integer_rows)).
Proof.
  apply (numpy_repository_stops_json
           (world_with (Some integer_rows) "2024-01-01T00:00:00") integer_rows).
  - reflexivity.
  - vm_compute. reflexivity.
Defined.

(** X22: when every repository of the table is a string (or empty),
    the labels fit a sheet and a label or a joined repository list of a
    sheet holds a character openpyxl refuses, the run stops with
    IllegalCharacterError inside [save_excel]: the JSON and CSV artifacts
    are complete and the workbook file is left unfinished. *)
Theorem control_character_stops_workbook (w : world) (rows : list row) :
  files w INPUT_CSV = Some (Table rows) ->
  Forall (fun r => truthy (repo_name r) = true -> is_str (repo_name r) = true) rows ->
  len (aggregate rows) <= 1048576 ->
  existsb illegal_line
          (top_sheet (generate_wordcloud_data (aggregate rows) 15)
           ++ all_sheet (aggregate rows)) = true ->
  exists w',
    main w = (Raise IllegalCharacterError, w')
    /\ files w' OUTPUT_JSON
       = Some (JsonDoc {| generatedAt := clock w;
                          data := generate_wordcloud_data (aggregate rows) 15;
                          totalTopics := len (aggregate rows);
                          top15Topics :=
                            len (generate_wordcloud_data (aggregate rows) 15) |})
    /\ files w' OUTPUT_CSV
       = Some (CsvDoc (map (fun item => (name item, value item, entry_count item,
                                         len (entry_repos item)))
                           (generate_wordcloud_data (aggregate rows) 15)))
    /\ files w' OUTPUT_EXCEL = Some Unfinished.
Proof.
  intros Hf Htext Hsize Hbad.
  destruct (main_textual w rows Hf Htext) as [-> Hjoin]. eexists.
  unfold bind at 1. rewrite save_excel_run, Hjoin.
  rewrite ranked_to_excel, (all_to_excel _ Hsize).
  rewrite existsb_app in Hbad.
  destruct (existsb illegal_line
              (top_sheet (generate_wordcloud_data (aggregate rows) 15)));
    [|cbn [orb] in Hbad; rewrite Hbad]; (split; [reflexivity|repeat split]).
Qed.

Lemma control_character_stops_workbook_witness :
  let w := world_with (Some control_rows) "2024-01-01T00:00:00" in
  exists w',
    main w = (Raise IllegalCharacterError, w')
    /\ files w' OUTPUT_JSON
       = Some (JsonDoc {| generatedAt := clock w;
                          data := generate_wordcloud_data (aggregate control_rows) 15;
                          totalTopics := len (aggregate control_rows);
                          top15Topics :=
                            len (generate_wordcloud_data (aggregate control_rows) 15) |})
    /\ files w' OUTPUT_CSV
       = Some (CsvDoc (map (fun item => (name item, value item, entry_count item,
                                         len (entry_repos item)))
                           (generate_wordcloud_data (aggregate control_rows) 15)))
    /\ files w' OUTPUT_EXCEL = Some Unfinished.
Proof.
  apply (control_character_stops_workbook
           (world_with (Some control_rows) "2024-01-01T00:00:00") control_rows).
  - reflexivity.
  - repeat constructor.
  - vm_compute. discriminate.
  - vm_compute. reflexivity.
Defined.

(** * Order of the records, and writing labels back *)

Lemma filter_length_perm {A : Type} (p : A -> bool) (l1 l2 : list A) :
  Permutation l1 l2 ->
  List.length (filter p l1) = List.length (filter p l2).
Proof.
  induction 1 as [|x l1 l2 _ IH|x y l|l1 l2 l3 _ IH1 _ IH2]; simpl.
  - reflexivity.
  - destruct (p x); simpl; now rewrite IH.
  - destruct (p x), (p y); reflexivity.
  - now rewrite IH1.
Qed.

Lemma all_labels_perm (rows rows' : list row) :
  Permutation rows rows' -> Permutation (all_labels rows) (all_labels rows').
Proof.
  unfold all_labels.
  induction 1 as [|x l1 l2 _ IH|x y l|l1 l2 l3 _ IH1 _ IH2]; simpl.
  - constructor.
  - now apply Permutation_app_head.
  - rewrite !app_assoc. apply Permutation_app_tail, Permutation_app_comm.
  - now transitivity (flat_map labels_of_row l2).
Qed.

(** X19: the counts and the set of keys do not depend on the order of the
    records (display labels and the order of the entries do). *)
Theorem counts_ignore_record_order (rows rows' : list row) :
  Permutation rows rows' ->
  (forall k, count_of k (aggregate rows) = count_of k (aggregate rows'))
  /\ Permutation (dict_keys (aggregate rows)) (dict_keys (aggregate rows')).
Proof.
  intros Hp. apply all_labels_perm in Hp. split.
  - intros k. rewrite !count_of_aggregate. unfold len.
    now rewrite (filter_length_perm _ _ _ Hp).
  - apply NoDup_Permutation; try apply aggregate_keys_NoDup.
    intros k. rewrite !aggregate_keys, !first_seen_In.
    split; apply Permutation_in; [|symmetry]; now apply Permutation_map.
Qed.

Lemma counts_ignore_record_order_witness :
  (forall k, count_of k (aggregate spec_rows)
             = count_of k (aggregate (rev spec_rows)))
  /\ Permutation (dict_keys (aggregate spec_rows))
                 (dict_keys (aggregate (rev spec_rows))).
Proof.
  apply (counts_ignore_record_order spec_rows (rev spec_rows)).
  apply Permutation_rev.
Defined.

Lemma lstrip_clean (s : string) :
  (forall c, head_char s = Some c -> isspace c = false) -> lstrip s = s.
Proof.
  destruct s as [|a s]; simpl; [reflexivity|].
  intros H. now rewrite (H a eq_refl).
Qed.

Lemma rstrip_clean (s : string) :
  (forall c, last_char s = Some c -> isspace c = false) -> rstrip s = s.
Proof.
  induction s as [|a s IH]; simpl; [reflexivity|]. intros H.
  destruct s as [|b s].
  - simpl. now rewrite (H a eq_refl).
  - rewrite IH by exact H. now rewrite andb_false_r.
Qed.

Lemma split_without_sep (sep : ascii) (s : string) :
  has_char sep s = false -> split sep s = [s].
Proof.
  induction s as [|a s IH]; simpl; [reflexivity|].
  intros H. apply orb_false_iff in H as [H1 H2]. now rewrite H1, IH.
Qed.

Lemma parse_topics_label (s t : string) :
  In t (parse_topics s) -> parse_topics t = [t].
Proof.
  intros Hin. pose proof Hin as Hsplit.
  apply parse_topics_In in Hsplit as (piece & Hp & -> & Hne).
  assert (Hc : has_char "," (strip piece) = false).
  { apply rstrip_has_char, lstrip_has_char. now apply (split_no_sep _ _ _ Hp). }
  assert (Hs : strip (strip piece) = strip piece).
  { unfold strip at 1. rewrite lstrip_clean.
    - apply rstrip_clean. intros c. apply strip_last.
    - intros c. apply strip_head. }
  unfold parse_topics. rewrite (split_without_sep _ _ Hc). cbn [filter].
  apply is_empty_false in Hne. rewrite Hs, Hne. cbn [negb map].
  now rewrite Hs.
Qed.

Lemma parse_join (s : string) (l : list string) :
  (forall t, In t l -> In t (parse_topics s)) ->
  parse_topics (join "," l) = l.
Proof.
  induction l as [|t l IH]; intros Hl; [reflexivity|].
  destruct l as [|u l].
  - simpl. apply (parse_topics_label s). apply Hl. now left.
  - change (join "," (t :: u :: l)) with (t ++ "," ++ join "," (u :: l))%string.
    rewrite parse_topics_app, (parse_topics_label s t) by (apply Hl; now left).
    rewrite IH; [reflexivity|]. intros x Hx. apply Hl. now right.
Qed.

(** X20: parsing is a round trip on its own output: the labels read from a
    topics text, written back with commas between them, are read again as
    the same labels; reading is not affected by another pass. *)
Theorem parse_join_round_trip (s : string) :
  parse_topics (join "," (parse_topics s)) = parse_topics s.
Proof. apply (parse_join s). auto. Qed.
